(** * clickhouse_mcp_server: the protocol adapter, embedded and verified

    A shallow embedding of [src/clickhouse_mcp_server/server.py]: the
    connection configuration ([get_clickhouse_client]), the catalog
    resolver ([list_resources], [read_resource]) and the query gateway
    ([call_tool]).

    Conventions.
    - A Python [str] is the [string] of its UTF-8 bytes.  A text of
      ASCII characters, as every literal of the source is, is its own
      encoding; concatenation, [split] on a slash, [startswith] for an
      ASCII prefix and the slice behind such a prefix act on the bytes
      as Python's act on the code points.
    - The built-ins that consult the Unicode tables ([str.strip],
      [str.upper], [int]) and the URL type of pydantic are not code of
      this repository: a [World] brings them along, and the handlers
      are verified for every world.  Module [Py] holds what these
      built-ins do on ASCII text; the concrete runs use it.
    - [os.environ] and the [arguments] dict are [gmap]s keyed by strings.
    - The handlers run in a small monad [M] that carries the raised
      exception, if any, and the log of calls made to the driver. *)

From Stdlib Require Import ZArith Ascii DecimalString.
From Stdlib Require DecimalPos.
From stdpp Require Import base option list strings gmap.

Local Open Scope Z_scope.

(** ** Python's string methods, on ASCII text

    [isspace], [strip], [upper], [lower] and [int_of_str] are the
    methods of Python on a text of ASCII characters: a byte from 128
    on, part of a longer character, is left alone by them. *)

Module Py.

Definition tab : string := String "009" EmptyString.
Definition newline : string := String "010" EmptyString.

(** [str.isspace] of one code point: the controls 9 to 13 and 28 to
    31, and the space. *)
Definition isspace (c : ascii) : bool :=
  let n := N_of_ascii c in
  ((9 <=? n) && (n <=? 13) || (28 <=? n) && (n <=? 32))%N.

Fixpoint lstrip (s : string) : string :=
  match s with
  | String c s' => if isspace c then lstrip s' else s
  | EmptyString => EmptyString
  end.

Fixpoint rstrip (s : string) : string :=
  match s with
  | String c s' =>
      match rstrip s' with
      | EmptyString => if isspace c then EmptyString else String c EmptyString
      | r => String c r
      end
  | EmptyString => EmptyString
  end.

(** [s.strip()] *)
Definition strip (s : string) : string := rstrip (lstrip s).

Definition upper_char (c : ascii) : ascii :=
  let n := N_of_ascii c in
  if ((97 <=? n) && (n <=? 122))%N then ascii_of_N (n - 32) else c.

Definition lower_char (c : ascii) : ascii :=
  let n := N_of_ascii c in
  if ((65 <=? n) && (n <=? 90))%N then ascii_of_N (n + 32) else c.

Fixpoint map_chars (f : ascii → ascii) (s : string) : string :=
  match s with
  | String c s' => String (f c) (map_chars f s')
  | EmptyString => EmptyString
  end.

(** [s.upper()] and [s.lower()] *)
Definition upper : string → string := map_chars upper_char.
Definition lower : string → string := map_chars lower_char.

(** [s.startswith(p)] *)
Definition startswith (s p : string) : bool := String.prefix p s.

(** [s.split(sep)] for a separator of one character: the pieces
    between the separators, the empty ones included. *)
Fixpoint split (sep : ascii) (s : string) : list string :=
  match s with
  | String c s' =>
      if decide (c = sep) then EmptyString :: split sep s'
      else match split sep s' with
           | p :: ps => String c p :: ps
           | [] => [String c EmptyString]
           end
  | EmptyString => [EmptyString]
  end.

(** [sep.join(l)] *)
Fixpoint join (sep : string) (l : list string) : string :=
  match l with
  | [] => EmptyString
  | [x] => x
  | x :: l' => x +:+ sep +:+ join sep l'
  end.

(** [str(n)] for an [int] *)
Definition str_of_int (n : Z) : string := NilZero.string_of_int (Z.to_int n).

Definition digit (c : ascii) : option Z :=
  let n := N_of_ascii c in
  if ((48 <=? n) && (n <=? 57))%N then Some (Z.of_N n - 48) else None.

(** The digits of a literal, read from the left: [acc] is the value
    so far and [prev] tells that the last character was a digit, the
    only place where an underscore may stand. *)
Fixpoint digits (acc : Z) (prev : bool) (s : string) : option Z :=
  match s with
  | String c s' =>
      match digit c with
      | Some d => digits (10 * acc + d) true s'
      | None =>
          if decide (c = "_"%char) then
            if prev then
              match s' with
              | String _ _ => digits acc false s'
              | EmptyString => None
              end
            else None
          else None
      end
  | EmptyString => if prev then Some acc else None
  end.

(** The run of digits and underscores at the head of a literal:
    [Some n] when it holds [n] digits, no two underscores in a row and
    none at its end ([prev] tells that the last character was an
    underscore). *)
Fixpoint digit_run (prev : bool) (n : nat) (s : string) : option nat :=
  match s with
  | String c s' =>
      match digit c with
      | Some _ => digit_run false (S n) s'
      | None =>
          if decide (c = "_"%char) then
            if prev then None else digit_run true n s'
          else if prev then None else Some n
      end
  | EmptyString => if prev then None else Some n
  end.

(** [sys.int_info.default_max_str_digits] *)
Definition max_str_digits : nat := 4300.

(** A literal without the white space around it and without its
    sign. *)
Definition unsigned (s : string) : string :=
  match strip s with
  | String "-" s' | String "+" s' => s'
  | s' => s'
  end.

(** The number of digits of a literal that has more than [int]
    converts. *)
Definition too_long (s : string) : option nat :=
  match digit_run false 0 (unsigned s) with
  | Some n => if (max_str_digits <? n)%nat then Some n else None
  | None => None
  end.

(** [int(s)] in base 10: white space around, one optional sign, then
    at most 4300 digits, single underscores allowed between two
    digits.  [None] stands for the [ValueError]. *)
Definition int_of_str (s : string) : option Z :=
  match too_long s with
  | Some _ => None
  | None =>
      match strip s with
      | String "-" s' => Z.opp <$> digits 0 false s'
      | String "+" s' => digits 0 false s'
      | s' => digits 0 false s'
      end
  end.

(** [s[n:]] *)
Fixpoint slice_from (n : nat) (s : string) : string :=
  match n, s with
  | S n', String _ s' => slice_from n' s'
  | _, _ => s
  end.

Fixpoint contains (c : ascii) (s : string) : bool :=
  match s with
  | String c' s' => bool_decide (c' = c) || contains c s'
  | EmptyString => false
  end.

Definition hex_digit (n : N) : ascii :=
  if (n <? 10)%N then ascii_of_N (48 + n) else ascii_of_N (87 + n).

(** One character of [repr(s)] inside the quote [q]. *)
Definition repr_char (q c : ascii) : string :=
  let n := N_of_ascii c in
  if decide (c = "\"%char) then "\\"
  else if decide (c = q) then String "\" (String q EmptyString)
  else if decide (n = 9%N) then "\t"
  else if decide (n = 10%N) then "\n"
  else if decide (n = 13%N) then "\r"
  else if ((n <? 32) || (126 <? n))%N then
    "\x" +:+ String (hex_digit (n / 16)) (String (hex_digit (n mod 16)) EmptyString)
  else String c EmptyString.

Fixpoint repr_chars (q : ascii) (s : string) : string :=
  match s with
  | String c s' => repr_char q c +:+ repr_chars q s'
  | EmptyString => EmptyString
  end.

Definition single_quote : ascii := "039".
Definition double_quote : ascii := "034".

(** [repr(s)]: single quotes, unless the string has a single quote
    and no double quote. *)
Definition repr (s : string) : string :=
  let q :=
    if contains single_quote s && negb (contains double_quote s)
    then double_quote else single_quote in
  String q (repr_chars q s) +:+ String q EmptyString.

End Py.

(** ** Values, exceptions and the driver *)

(** The exceptions the handlers raise or let through.  [DriverError]
    is whatever the driver raises, [ValidationError] what the URL type
    raises; [str(e)] of each is its message. *)
Inductive exn :=
  | ValueError (msg : string)
  | AttributeError (msg : string)
  | IndexError (msg : string)
  | TypeError (msg : string)
  | ValidationError (msg : string)
  | DriverError (msg : string).

Definition exn_str (e : exn) : string :=
  match e with
  | ValueError m | AttributeError m | IndexError m | TypeError m
  | ValidationError m | DriverError m => m
  end.

(** A value of a result row.  The handlers only ever format a value,
    so a value of any other driver type (UUID, date, decimal, float) is
    carried by the name of its class and its display string. *)
Inductive Scalar :=
  | SNone
  | SBool (b : bool)
  | SInt (n : Z)
  | SStr (s : string)
  | SObj (cls display : string).

(** [str(value)], which is also what an f-string field prints. *)
Definition str (v : Scalar) : string :=
  match v with
  | SNone => "None"
  | SBool true => "True"
  | SBool false => "False"
  | SInt n => Py.str_of_int n
  | SStr s => s
  | SObj _ display => display
  end.

Definition scalar_type_name (v : Scalar) : string :=
  match v with
  | SNone => "NoneType"
  | SBool _ => "bool"
  | SInt _ => "int"
  | SStr _ => "str"
  | SObj cls _ => cls
  end.

(** A value of the [arguments] dict, as decoded from JSON. *)
#[warnings="-register-all"]
Inductive PyVal :=
  | PNone
  | PBool (b : bool)
  | PInt (n : Z)
  | PStr (s : string)
  | PList (l : list PyVal)
  | PDict (d : list (string * PyVal)).

(** The truth value Python's [not] tests. *)
Definition truthy (v : PyVal) : bool :=
  match v with
  | PNone => false
  | PBool b => b
  | PInt n => negb (n =? 0)
  | PStr s => negb (bool_decide (s = EmptyString))
  | PList l => negb (bool_decide (l = []))
  | PDict d => negb (bool_decide (d = []))
  end.

Definition type_name (v : PyVal) : string :=
  match v with
  | PNone => "NoneType"
  | PBool _ => "bool"
  | PInt _ => "int"
  | PStr _ => "str"
  | PList _ => "list"
  | PDict _ => "dict"
  end.

Record QueryResult := {
  column_names : list string;
  result_rows : list (list Scalar)
}.

(** The driver's client: [query] answers a statement or raises. *)
Record Client := { query : string → exn + QueryResult }.

Record ConnParams := {
  host : string;
  port : Z;
  username : string;
  password : string;
  database : string
}.

(** A value of [pydantic.AnyUrl], known by the text [str(uri)]
    gives. *)
Inductive AnyUrl := mkAnyUrl (s : string).

Definition url_str (u : AnyUrl) : string := let 'mkAnyUrl s := u in s.

(** The built-ins of Python whose answer depends on the Unicode
    tables: [s.strip()], [s.upper()] and [int(s)], which raises for a
    text that is no number.  Of the tables one thing is kept: the
    empty string has no character to remove or to change. *)
Record Builtins := {
  str_strip : string → string;
  str_upper : string → string;
  int_of : string → exn + Z;
  strip_empty : str_strip EmptyString = EmptyString;
  upper_empty : str_upper EmptyString = EmptyString
}.

(** What a call sees of the outside: the process environment, the
    driver's [get_client], the built-ins, and the constructor
    [AnyUrl(text)], which checks the text and may rewrite it, or
    raises. *)
Record World := {
  environ : gmap string string;
  get_client : ConnParams → exn + Client;
  builtins : Builtins;
  any_url : string → exn + AnyUrl
}.

(** The calls that reach the driver, in the order they are made. *)
Inductive Event :=
  | GetClient (p : ConnParams)
  | Query (sql : string).

Definition is_query (ev : Event) : bool :=
  match ev with Query _ => true | GetClient _ => false end.

(** ** The monad of the handlers *)

Definition M (A : Type) : Type := list Event * (exn + A).

Definition raise {A} (e : exn) : M A := ([], inl e).

Global Instance M_ret : MRet M := λ A a, ([], inr a).

Global Instance M_bind : MBind M := λ A B f m,
  match m with
  | (t, inr a) => let '(t', r) := f a in (t ++ t', r)
  | (t, inl e) => (t, inl e)
  end.

(** [try: m except Exception as e: h e] *)
Definition try_except {A} (m : M A) (h : exn → M A) : M A :=
  match m with
  | (t, inl e) => let '(t', r) := h e in (t ++ t', r)
  | (t, inr a) => (t, inr a)
  end.

Definition trace {A} (m : M A) : list Event := m.1.
Definition outcome {A} (m : M A) : exn + A := m.2.

(** [for x in l: s = body x s] *)
Fixpoint for_each {A S} (l : list A) (body : A → S → M S) (s : S) : M S :=
  match l with
  | [] => mret s
  | x :: l' => s' ← body x s; for_each l' body s'
  end.

(** [row[i]] on a row of a result *)
Definition item {A} (row : list A) (i : nat) : M A :=
  match row !! i with
  | Some x => mret x
  | None => raise (IndexError "tuple index out of range")
  end.

(** The items [sep.join] receives must be [str]s: the first one from
    position [i] on that is not raises the [TypeError]. *)
Fixpoint joinable (i : nat) (l : list Scalar) : M (list string) :=
  match l with
  | SStr s :: l' => ss ← joinable (S i) l'; mret (s :: ss)
  | v :: _ =>
      raise (TypeError ("sequence item " +:+ Py.str_of_int (Z.of_nat i)
                        +:+ ": expected str instance, "
                        +:+ scalar_type_name v +:+ " found"))
  | [] => mret []
  end.

(** [client.query(sql)] *)
Definition run_query (client : Client) (sql : string) : M QueryResult :=
  ([Query sql], query client sql).

(** ** Connection configuration *)

(** [os.getenv(key, default)] *)
Definition getenv (w : World) (key dflt : string) : string :=
  default dflt (environ w !! key).

(** [a or b] on an optional string: [a] when it is neither [None] nor
    empty. *)
Definition or_str (a : option string) (b : string) : string :=
  match a with
  | Some (String c s) => String c s
  | Some EmptyString | None => b
  end.

(** [int(s)] *)
Definition int (w : World) (s : string) : M Z := ([], int_of (builtins w) s).

(** [AnyUrl(text)] *)
Definition new_AnyUrl (w : World) (text : string) : M AnyUrl := ([], any_url w text).

(** [port or int(os.getenv(...))]: the right operand is evaluated only
    when [port] is [None] or [0]. *)
Definition or_port (a : option Z) (b : M Z) : M Z :=
  match a with
  | Some p => if p =? 0 then b else mret p
  | None => b
  end.

Definition call_get_client (w : World) (p : ConnParams) : M Client :=
  ([GetClient p], get_client w p).

Definition get_clickhouse_client (w : World)
    (host : option string) (port : option Z)
    (username password database : option string) : M Client :=
  let CLICKHOUSE_HOST := or_str host (getenv w "CLICKHOUSE_HOST" "localhost") in
  CLICKHOUSE_PORT ← or_port port (int w (getenv w "CLICKHOUSE_PORT" "8123"));
  let CLICKHOUSE_USER := or_str username (getenv w "CLICKHOUSE_USER" "default") in
  let CLICKHOUSE_PASSWORD := or_str password (getenv w "CLICKHOUSE_PASSWORD" EmptyString) in
  let CLICKHOUSE_DATABASE := or_str database (getenv w "CLICKHOUSE_DATABASE" "default") in
  call_get_client w {|
    host := CLICKHOUSE_HOST;
    port := CLICKHOUSE_PORT;
    username := CLICKHOUSE_USER;
    password := CLICKHOUSE_PASSWORD;
    database := CLICKHOUSE_DATABASE
  |}.

(** ** Catalog resolver *)

Record Resource := {
  uri : AnyUrl;
  name : string;
  mimeType : string;
  description : string
}.

Record TextContent := {
  type : string;
  text : string
}.

(** The statement that lists the databases, as the source spells it. *)
Definition db_query : string := "
    SELECT
        name,
        engine
    FROM system.databases
    WHERE name NOT IN ('system', 'information_schema', 'INFORMATION_SCHEMA')
    ".

(** The text handed to [AnyUrl] for a database, and for a table. *)
Definition tables_text (database : string) : string :=
  "clickhouse://" +:+ database +:+ "/tables".

Definition schema_text (database table : string) : string :=
  "clickhouse://" +:+ database +:+ "/" +:+ table +:+ "/schema".

(** The descriptor appended for a database, [uri] being the value of
    [AnyUrl(...)]. *)
Definition tables_resource (uri : AnyUrl) (database : string) : Resource := {|
  uri := uri;
  name := "Database: " +:+ database;
  mimeType := "text/plain";
  description := "Tables in database: " +:+ database
|}.

(** The descriptor built for a table row inside the comprehension. *)
Definition schema_resource (uri : AnyUrl) (database table : string) : Resource := {|
  uri := uri;
  name := "Table: " +:+ database +:+ "." +:+ table;
  mimeType := "text/plain";
  description := "Schema of table: " +:+ database +:+ "." +:+ table
|}.

Definition list_resources (w : World) : M (list Resource) :=
  client ← get_clickhouse_client w None None None None None;
  let resources := [] in
  db_result ← run_query client db_query;
  for_each (result_rows db_result) (λ db resources,
    database ← item db 0;
    uri ← new_AnyUrl w (tables_text (str database));
    let resources := resources ++ [tables_resource uri (str database)] in
    table_result ← run_query client ("SHOW TABLES FROM " +:+ str database);
    extension ← mapM (λ table,
        table_0 ← item table 0;
        uri ← new_AnyUrl w (schema_text (str database) (str table_0));
        mret (schema_resource uri (str database) (str table_0)))
      (result_rows table_result);
    mret (resources ++ extension)) resources.

Definition read_resource (w : World) (uri : AnyUrl) : M string :=
  client ← get_clickhouse_client w None None None None None;
  let uri_str := url_str uri in
  if negb (Py.startswith uri_str "clickhouse://") then
    raise (ValueError ("Invalid URI scheme: " +:+ uri_str))
  else
    let parts := Py.split "/" (Py.slice_from (String.length "clickhouse://") uri_str) in
    if bool_decide (length parts = 2%nat) && bool_decide (parts !! 1%nat = Some "tables") then
      database ← item parts 0;
      result ← run_query client ("SHOW TABLES FROM " +:+ database);
      rows ← mapM (λ row, item row 0) (result_rows result);
      rows ← joinable 0 rows;
      mret (Py.join Py.newline rows)
    else if bool_decide (length parts = 3%nat) && bool_decide (parts !! 2%nat = Some "schema") then
      database ← item parts 0;
      table ← item parts 1;
      result ← run_query client ("DESCRIBE TABLE " +:+ database +:+ "." +:+ table);
      schema ← mapM (λ row,
          row_0 ← item row 0;
          row_1 ← item row 1;
          mret (str row_0 +:+ " - " +:+ str row_1))
        (result_rows result);
      mret (Py.join Py.newline schema)
    else
      raise (ValueError ("Invalid resource URI: " +:+ uri_str)).

(** ** Query gateway *)

Definition only_select : string := "Error: Only SELECT queries are allowed.".

(** The test of the source's read-only gate:
    [query.strip().upper().startswith("SELECT")]. *)
Definition gate (b : Builtins) (query : string) : bool :=
  Py.startswith (str_upper b (str_strip b query)) "SELECT".

(** The body of the [try] block. *)
Definition execute (w : World) (query : string) : M (list TextContent) :=
  client ← get_clickhouse_client w None None None None None;
  result ← run_query client query;
  let output := [] in
  let output := output ++ [Py.join Py.tab (column_names result)] in
  let output :=
    foldl (λ output row, output ++ [Py.join Py.tab (str <$> row)])
      output (result_rows result) in
  mret [{| type := "text"; text := Py.join Py.newline output |}].

Definition call_tool (w : World) (name : string) (arguments : gmap string PyVal)
    : M (list TextContent) :=
  if bool_decide (name ≠ "execute_select_query") then
    raise (ValueError ("Unknown tool: " +:+ name))
  else
    let query := default PNone (arguments !! "query") in
    if negb (truthy query) then raise (ValueError "Query is required")
    else
      match query with
      | PStr q =>
          if negb (gate (builtins w) q) then
            mret [{| type := "text"; text := only_select |}]
          else
            try_except (execute w q) (λ e,
              mret [{| type := "text";
                       text := "Error executing query: " +:+ exn_str e |}])
      | _ =>
          raise (AttributeError
                   ("'" +:+ type_name query +:+ "' object has no attribute 'strip'"))
      end.

(** ** A store that holds a catalog

    The handlers leave the choice of the databases to the store: it is
    the [WHERE] clause of [db_query] that drops the reserved ones.  To
    speak about the databases that are listed, this section gives the
    store a catalog and lets it read the statements it is sent: the
    names it leaves out of a listing are those it finds behind
    [NOT IN] in the text of the statement. *)

Module Sql.

(** The text behind the word [kw], the white space before the word
    skipped; [None] when the text does not go on with [kw]. *)
Definition keyword (kw : string) (s : string) : option string :=
  let s := Py.lstrip s in
  if Py.startswith s kw then Some (Py.slice_from (String.length kw) s)
  else None.

(** The text up to the next single quote, and the text behind that
    quote. *)
Fixpoint until_quote (s : string) : option (string * string) :=
  match s with
  | String c s' =>
      if decide (c = "'"%char) then Some (EmptyString, s')
      else '(lit, rest) ← until_quote s'; Some (String c lit, rest)
  | EmptyString => None
  end.

(** String literals in single quotes, with commas between them, up to
    the closing parenthesis; [fuel] bounds their number. *)
Fixpoint literals (fuel : nat) (s : string) : option (list string * string) :=
  match fuel with
  | O => None
  | S fuel =>
      s ← keyword "'" s;
      '(lit, s) ← until_quote s;
      match keyword "," s with
      | Some s => '(lits, s) ← literals fuel s; Some (lit :: lits, s)
      | None => s ← keyword ")" s; Some ([lit], s)
      end
  end.

(** The names a listing of the databases leaves out:
    [SELECT name, engine FROM system.databases], alone or followed by
    [WHERE name NOT IN ('...', ...)].  [None] for any other text. *)
Definition databases_listing (sql : string) : option (list string) :=
  s ← keyword "SELECT" sql;
  s ← keyword "name" s;
  s ← keyword "," s;
  s ← keyword "engine" s;
  s ← keyword "FROM" s;
  s ← keyword "system.databases" s;
  match keyword "WHERE" s with
  | Some s =>
      s ← keyword "name" s;
      s ← keyword "NOT" s;
      s ← keyword "IN" s;
      s ← keyword "(" s;
      '(lits, s) ← literals (String.length s) s;
      if bool_decide (Py.lstrip s = EmptyString) then Some lits else None
  | None =>
      if bool_decide (Py.lstrip s = EmptyString) then Some [] else None
  end.

End Sql.

Record Table := {
  table_name : string;
  table_columns : list (string * string)
}.

Record Database := {
  database_name : string;
  database_engine : string;
  database_tables : list Table
}.

(** The names the store reads behind [NOT IN] in [db_query]. *)
Definition not_in : list string :=
  ["system"; "information_schema"; "INFORMATION_SCHEMA"].

Definition show_tables (d : Database) : QueryResult := {|
  column_names := ["name"];
  result_rows := (λ t, [SStr (table_name t)]) <$> database_tables d
|}.

(** [DESCRIBE TABLE] answers seven columns, the name and the type
    first. *)
Definition describe_table (t : Table) : QueryResult := {|
  column_names := ["name"; "type"; "default_type"; "default_expression";
                   "comment"; "codec_expression"; "ttl_expression"];
  result_rows :=
    (λ c, [SStr c.1; SStr c.2; SStr EmptyString; SStr EmptyString;
           SStr EmptyString; SStr EmptyString; SStr EmptyString])
      <$> table_columns t
|}.

(** The database of that name, the first one if there were two. *)
Definition lookup_database (cat : list Database) (name : string) : option Database :=
  find (λ d, bool_decide (database_name d = name)) cat.

(** The table a qualified name [database.table] stands for. *)
Definition lookup_table (cat : list Database) (qualified : string) : option Table :=
  d ← find (λ d, Py.startswith qualified (database_name d +:+ ".")) cat;
  find (λ t, bool_decide (qualified = database_name d +:+ "." +:+ table_name t))
       (database_tables d).

(** The answer to a listing that leaves out the names [excluded]:
    the store compares names character by character. *)
Definition list_databases (cat : list Database) (excluded : list string) : QueryResult := {|
  column_names := ["name"; "engine"];
  result_rows :=
    (λ d, [SStr (database_name d); SStr (database_engine d)])
      <$> filter (λ d, database_name d ∉ excluded) cat
|}.

Definition catalog_query (cat : list Database) (sql : string) : exn + QueryResult :=
  match Sql.databases_listing sql with
  | Some excluded => inr (list_databases cat excluded)
  | None =>
  if Py.startswith sql "SHOW TABLES FROM " then
    let name := Py.slice_from (String.length "SHOW TABLES FROM ") sql in
    match lookup_database cat name with
    | Some d => inr (show_tables d)
    | None => inl (DriverError ("Database " +:+ name +:+ " doesn't exist"))
    end
  else if Py.startswith sql "DESCRIBE TABLE " then
    let qualified := Py.slice_from (String.length "DESCRIBE TABLE ") sql in
    match lookup_table cat qualified with
    | Some t => inr (describe_table t)
    | None => inl (DriverError ("Table " +:+ qualified +:+ " doesn't exist"))
    end
  else inl (DriverError "Syntax error")
  end.

Definition catalog_client (cat : list Database) : Client :=
  {| query := catalog_query cat |}.

(** ** Built-ins and a URL type for the concrete runs *)

(** [int(s)] on ASCII text, with its two ValueErrors. *)
Definition ascii_int (s : string) : exn + Z :=
  match Py.too_long s with
  | Some n =>
      inl (ValueError
             ("Exceeds the limit (4300 digits) for integer string conversion: value has "
              +:+ Py.str_of_int (Z.of_nat n)
              +:+ " digits; use sys.set_int_max_str_digits() to increase the limit"))
  | None =>
      match Py.int_of_str s with
      | Some n => inr n
      | None =>
          inl (ValueError ("invalid literal for int() with base 10: " +:+ Py.repr s))
      end
  end.

(** The built-ins as they are on ASCII text. *)
Definition ascii_builtins : Builtins := {|
  str_strip := Py.strip;
  str_upper := Py.upper;
  int_of := ascii_int;
  strip_empty := eq_refl;
  upper_empty := eq_refl
|}.

(** A character that a URL keeps as it is, in the host and in the
    path: a letter, a digit, [-], [.] or [_]. *)
Definition plain_char (c : ascii) : bool :=
  let n := N_of_ascii c in
  ((48 <=? n) && (n <=? 57) || (65 <=? n) && (n <=? 90)
   || (97 <=? n) && (n <=? 122) || (n =? 45) || (n =? 46) || (n =? 95))%N.

Fixpoint all_chars (f : ascii → bool) (s : string) : bool :=
  match s with
  | String c s' => f c && all_chars f s'
  | EmptyString => true
  end.

(** A segment of plain characters that is not empty and not a dot
    segment. *)
Definition plain_segment (s : string) : bool :=
  all_chars plain_char s
  && negb (bool_decide (s = EmptyString))
  && negb (bool_decide (s = "."))
  && negb (bool_decide (s = "..")).

(** A stand-in for [AnyUrl(text)]: the text [clickhouse://] followed
    by plain segments with slashes between them is a URL and is kept
    as it is, which is what pydantic does with it; every other text
    is refused.  (pydantic refuses a host with a space in the same
    way, with a longer message; other texts refused here it may
    accept and rewrite: no run below builds one.) *)
Definition plain_url (text : string) : exn + AnyUrl :=
  if Py.startswith text "clickhouse://"
     && forallb plain_segment
          (Py.split "/" (Py.slice_from (String.length "clickhouse://") text))
  then inr (mkAnyUrl text)
  else inl (ValidationError "Input should be a valid URL").

(** A reachable store with the catalog [cat], under the environment
    [env], the built-ins [py] and the URL type [url]. *)
Definition catalog_world_with (env : gmap string string) (py : Builtins)
    (url : string → exn + AnyUrl) (cat : list Database) : World :=
  {| environ := env; get_client := λ _, inr (catalog_client cat);
     builtins := py; any_url := url |}.

Definition catalog_world (env : gmap string string) (cat : list Database) : World :=
  catalog_world_with env ascii_builtins plain_url cat.

(** A store that answers every statement with [r]. *)
Definition fixed_world (env : gmap string string) (r : exn + QueryResult) : World :=
  {| environ := env; get_client := λ _, inr {| query := λ _, r |};
     builtins := ascii_builtins; any_url := plain_url |}.

(** A store that cannot be reached. *)
Definition unreachable_world (env : gmap string string) (msg : string) : World :=
  {| environ := env; get_client := λ _, inl (DriverError msg);
     builtins := ascii_builtins; any_url := plain_url |}.

(** The parameters of a call without arguments under an empty
    environment. *)
Definition default_params : ConnParams := {|
  host := "localhost"; port := 8123; username := "default";
  password := EmptyString; database := "default"
|}.

Definition test_catalog : list Database := [
  {| database_name := "default"; database_engine := "Atomic";
     database_tables := [
       {| table_name := "t";
          table_columns := [("id", "UUID"); ("name", "String")] |} ] |};
  {| database_name := "system"; database_engine := "Atomic";
     database_tables := [
       {| table_name := "tables"; table_columns := [("name", "String")] |} ] |};
  {| database_name := "INFORMATION_SCHEMA"; database_engine := "Memory";
     database_tables := [] |};
  {| database_name := "SYSTEM"; database_engine := "Atomic";
     database_tables := [] |}
 ].

(** ** What the statements below speak about *)

Definition text_block (body : string) : TextContent :=
  {| type := "text"; text := body |}.

(** The serialisation of a result: the header, then one line per row. *)
Definition render (r : QueryResult) : string :=
  Py.join Py.newline
    (Py.join Py.tab (column_names r)
       :: ((λ row, Py.join Py.tab (str <$> row)) <$> result_rows r)).

(** The reading of the specification: the first that is not null of
    the explicit argument, the environment variable and the default. *)
Definition first_non_null {A} (arg env : option A) (dflt : A) : A :=
  match arg, env with
  | Some a, _ => a
  | None, Some v => v
  | None, None => dflt
  end.

(** What the source does: the explicit argument counts only when it is
    truthy. *)
Definition first_truthy {A} (is_truthy : A → bool) (arg env : option A) (dflt : A) : A :=
  match arg, env with
  | Some a, Some v => if is_truthy a then a else v
  | Some a, None => if is_truthy a then a else dflt
  | None, Some v => v
  | None, None => dflt
  end.

Definition nonempty (s : string) : bool :=
  match s with String _ _ => true | EmptyString => false end.

Definition nonzero (n : Z) : bool := negb (n =? 0).

(** The text [int] is given when no truthy port is passed. *)
Definition port_text (w : World) : string := default "8123" (environ w !! "CLICKHOUSE_PORT").

(** The port: the explicit one when it is truthy, else what [int]
    makes of the text, a number or its exception. *)
Definition resolved_port (w : World) (port : option Z) : exn + Z :=
  match port with
  | Some p => if nonzero p then inr p else int_of (builtins w) (port_text w)
  | None => int_of (builtins w) (port_text w)
  end.

(** The parameters [get_client] receives, [n] being the port. *)
Definition resolved (w : World)
    (host username password database : option string) (n : Z)
    : ConnParams := {|
  host := first_truthy nonempty host (environ w !! "CLICKHOUSE_HOST") "localhost";
  port := n;
  username := first_truthy nonempty username (environ w !! "CLICKHOUSE_USER") "default";
  password := first_truthy nonempty password (environ w !! "CLICKHOUSE_PASSWORD") EmptyString;
  database := first_truthy nonempty database (environ w !! "CLICKHOUSE_DATABASE") "default"
|}.

(** The parameters of a call without arguments, once the port is
    read. *)
Definition env_params (w : World) (n : Z) : ConnParams := {|
  host := getenv w "CLICKHOUSE_HOST" "localhost";
  port := n;
  username := getenv w "CLICKHOUSE_USER" "default";
  password := getenv w "CLICKHOUSE_PASSWORD" EmptyString;
  database := getenv w "CLICKHOUSE_DATABASE" "default"
|}.

(** The two shapes of the grammar: the segments [database] and
    [table] hold no slash. *)
Definition table_list_identifier (u : string) : Prop :=
  ∃ database,
    Py.contains "/" database = false
    ∧ u = "clickhouse://" +:+ database +:+ "/tables".

Definition schema_identifier (u : string) : Prop :=
  ∃ database table,
    Py.contains "/" database = false
    ∧ Py.contains "/" table = false
    ∧ u = "clickhouse://" +:+ database +:+ "/" +:+ table +:+ "/schema".

(** The segments [read_resource] computes. *)
Definition segments (u : string) : list string :=
  Py.split "/" (Py.slice_from (String.length "clickhouse://") u).

(** The two tests of [read_resource], after the test of the scheme. *)
Definition is_table_list (u : string) : bool :=
  Py.startswith u "clickhouse://"
  && (bool_decide (length (segments u) = 2%nat)
      && bool_decide (segments u !! 1%nat = Some "tables")).

Definition is_schema (u : string) : bool :=
  Py.startswith u "clickhouse://"
  && (bool_decide (length (segments u) = 3%nat)
      && bool_decide (segments u !! 2%nat = Some "schema")).

(** The descriptors of one database, in the order they are appended,
    [url] giving the value of [AnyUrl] for each text. *)
Definition database_resources (url : string → AnyUrl)
    (database : string) (tables : list string) : list Resource :=
  tables_resource (url (tables_text database)) database
  :: ((λ table, schema_resource (url (schema_text database table)) database table)
        <$> tables).

(** The names [list_resources] gets from a store with the catalog
    [cat], and the tables it gets for a name. *)
Definition listed_databases (cat : list Database) : list string :=
  database_name <$> filter (λ d, database_name d ∉ not_in) cat.


(** ** Data of the concrete runs *)

(** The [arguments] dict with the one key query. *)
Definition only_query (v : PyVal) : gmap string PyVal := {["query" := v]}.

Definition reachable : World := catalog_world ∅ test_catalog.

Definition insert_query : string :=
  "INSERT INTO test_table (id, name, value) VALUES (1, 'Invalid', 100)".

(** The result of the integration test: three columns, two rows. *)
Definition test_result : QueryResult := {|
  column_names := ["id"; "name"; "value"];
  result_rows := [
    [SObj "UUID" "0b0e7a52-5d2c-4c0e-9d0a-1f2e3d4c5b6a"; SStr "Test 1"; SInt 10];
    [SObj "UUID" "6f1d2c3b-4a59-4e87-8c6d-7e8f9a0b1c2d"; SStr "Test 2"; SInt 20] ]
|}.

Definition failing : World :=
  fixed_world ∅ (inl (DriverError "Table default.missing doesn't exist")).

Definition reachable_events : list Event :=
  [GetClient default_params; Query db_query;
   Query "SHOW TABLES FROM default"; Query "SHOW TABLES FROM SYSTEM"].

Definition reachable_resources : list Resource :=
  [tables_resource (mkAnyUrl "clickhouse://default/tables") "default";
   schema_resource (mkAnyUrl "clickhouse://default/t/schema") "default" "t";
   tables_resource (mkAnyUrl "clickhouse://SYSTEM/tables") "SYSTEM"].


Definition secret_env : gmap string string :=
  {["CLICKHOUSE_PASSWORD" := "secret"]}.

(** ** The tool surface *)

Module Tool.

(** [mcp.types.Tool], with the three fields the source fills in. *)
Record t := {
  name : string;
  description : string;
  inputSchema : PyVal
}.

End Tool.

(** The declaration of the one tool. *)
Definition execute_select_query : Tool.t := {|
  Tool.name := "execute_select_query";
  Tool.description := "Execute a SELECT query on the ClickHouse server";
  Tool.inputSchema :=
    PDict [
      ("type", PStr "object");
      ("properties",
       PDict [
         ("query",
          PDict [
            ("type", PStr "string");
            ("description", PStr "The SELECT query to execute") ]) ]);
      ("required", PList [PStr "query"]) ]
|}.

(** [list_tools()]: the list of that one declaration ([logger.info]
    has no part in the result). *)
Definition list_tools : list Tool.t := [execute_select_query].

(** [d[key]] on a value that is a dict. *)
Definition dict_get (key : string) (v : PyVal) : option PyVal :=
  match v with
  | PDict d => snd <$> find (λ kv, bool_decide (kv.1 = key)) d
  | _ => None
  end.

(** The keys a schema declares required. *)
Definition required_keys (schema : PyVal) : list string :=
  match dict_get "required" schema with
  | Some (PList l) =>
      omap (λ v, match v with PStr k => Some k | _ => None end) l
  | _ => []
  end.

(** ** Statements about every run *)

(** What [call_tool] answers when the [try] block fails. *)
Definition report (e : exn) : M (list TextContent) :=
  mret [text_block ("Error executing query: " +:+ exn_str e)].

(** [m] makes only calls that satisfy [E] and, when it returns,
    returns a value that satisfies [P]. *)
Definition satisfies {A} (E : Event → Prop) (P : A → Prop) (m : M A) : Prop :=
  Forall E (trace m) ∧ ∀ a, outcome m = inr a → P a.

(** The statements sent along a run. *)
Definition statements {A} (m : M A) : list string :=
  omap (λ ev, match ev with Query sql => Some sql | GetClient _ => None end)
       (trace m).

(** The two branches of [read_resource] past the tests of the
    identifier. *)
Definition read_tables (client : Client) (database : string) : M string :=
  result ← run_query client ("SHOW TABLES FROM " +:+ database);
  rows ← mapM (λ row, item row 0) (result_rows result);
  rows ← joinable 0 rows;
  mret (Py.join Py.newline rows).

Definition read_schema (client : Client) (database table : string) : M string :=
  result ← run_query client ("DESCRIBE TABLE " +:+ database +:+ "." +:+ table);
  schema ← mapM (λ row,
      row_0 ← item row 0;
      row_1 ← item row 1;
      mret (str row_0 +:+ " - " +:+ str row_1))
    (result_rows result);
  mret (Py.join Py.newline schema).

(** The number a run of decimal digits stands for after [acc]. *)
Fixpoint uint_value (acc : Z) (d : Decimal.uint) : Z :=
  match d with
  | Decimal.Nil => acc
  | Decimal.D0 d => uint_value (10 * acc + 0) d
  | Decimal.D1 d => uint_value (10 * acc + 1) d
  | Decimal.D2 d => uint_value (10 * acc + 2) d
  | Decimal.D3 d => uint_value (10 * acc + 3) d
  | Decimal.D4 d => uint_value (10 * acc + 4) d
  | Decimal.D5 d => uint_value (10 * acc + 5) d
  | Decimal.D6 d => uint_value (10 * acc + 6) d
  | Decimal.D7 d => uint_value (10 * acc + 7) d
  | Decimal.D8 d => uint_value (10 * acc + 8) d
  | Decimal.D9 d => uint_value (10 * acc + 9) d
  end.

(** A string of ASCII white space only. *)
Definition blank (s : string) : Prop := Py.lstrip s = EmptyString.

(** A text of ASCII characters: every byte is below 128. *)
Definition ascii_text (s : string) : bool :=
  all_chars (λ c, (N_of_ascii c <? 128)%N) s.

(** The statements of the catalog resolver. *)
Definition catalog_statement (sql : string) : Prop :=
  sql = db_query ∨ ∃ database, sql = "SHOW TABLES FROM " +:+ database.

(** The events a handler of the catalog may cause. *)
Definition catalog_event (ev : Event) : Prop :=
  match ev with
  | GetClient _ => True
  | Query sql => catalog_statement sql
  end.

(** The events of a listing against the catalog [cat]: the statement
    [db_query], and SHOW TABLES for a name that statement lets
    through. *)
Definition listing_event (cat : list Database) (ev : Event) : Prop :=
  match ev with
  | GetClient _ => True
  | Query sql =>
      sql = db_query
      ∨ ∃ d, d ∈ listed_databases cat ∧ sql = "SHOW TABLES FROM " +:+ d
  end.

(** A descriptor as [list_resources] builds them for the database
    [database]: for its table list or for the schema of one of its
    tables, around the URL that [AnyUrl] made of the text. *)
Definition descriptor_of (w : World) (database : string) (r : Resource) : Prop :=
  (∃ uri, any_url w (tables_text database) = inr uri
          ∧ r = tables_resource uri database)
  ∨ (∃ table uri, any_url w (schema_text database table) = inr uri
                  ∧ r = schema_resource uri database table).

Definition descriptor (w : World) (r : Resource) : Prop :=
  ∃ database, descriptor_of w database r.

(** A store that answers the listing of the databases with [names]
    and knows the tables of the databases in [known] only. *)
Definition partial_client (names : list string)
    (known : list (string * list string)) : Client := {|
  query sql :=
    if decide (sql = db_query) then
      inr {| column_names := ["name"; "engine"];
             result_rows := (λ d, [SStr d; SStr "Atomic"]) <$> names |}
    else
      match find (λ kv, bool_decide (sql = "SHOW TABLES FROM " +:+ kv.1)) known with
      | Some kv => inr {| column_names := ["name"];
                          result_rows := (λ t, [SStr t]) <$> kv.2 |}
      | None => inl (DriverError "Code: 81. Database is unknown")
      end
|}.

Definition partial_world (names : list string)
    (known : list (string * list string)) : World :=
  {| environ := ∅; get_client := λ _, inr (partial_client names known);
     builtins := ascii_builtins; any_url := plain_url |}.

(** A store with three databases that lost the second one between
    the listing and the question for its tables. *)
Definition losing : World := partial_world ["a"; "b"; "c"] [("a", ["t1"])].

Definition port_env : World :=
  catalog_world {["CLICKHOUSE_PORT" := "9000"]} test_catalog.

(** * Properties *)

(** ** The string methods *)

Section StringFacts.

Implicit Types (s p r : string) (c sep : ascii) (ps : list string).

Lemma app_cons c s r : String c s +:+ r = String c (s +:+ r).
Proof. reflexivity. Qed.

Lemma app_empty_l s : EmptyString +:+ s = s.
Proof. reflexivity. Qed.

Lemma startswith_app s p : Py.startswith (p +:+ s) p = true.
Proof.
  unfold Py.startswith. induction p as [|c p IH]; [by destruct s|].
  rewrite app_cons. simpl. by destruct (ascii_dec c c).
Qed.

Lemma startswith_inv s p :
  Py.startswith s p = true → s = p +:+ Py.slice_from (String.length p) s.
Proof.
  unfold Py.startswith. revert s. induction p as [|c p IH]; intros s H.
  - by destruct s.
  - destruct s as [|c' s]; [done|]. simpl in H.
    destruct (ascii_dec c c') as [->|]; [|done].
    rewrite app_cons. simpl. f_equal. by apply IH.
Qed.

Lemma slice_from_app s p : Py.slice_from (String.length p) (p +:+ s) = s.
Proof. induction p as [|c p IH]; [by destruct s|]. by rewrite app_cons. Qed.

(** [split] never answers the empty list. *)
Lemma split_not_nil sep s : Py.split sep s ≠ [].
Proof.
  destruct s as [|c s]; [done|]. simpl.
  destruct (decide (c = sep)); [done|]. by destruct (Py.split sep s).
Qed.

(** A string without the separator is one piece. *)
Lemma split_no_sep sep s : Py.contains sep s = false → Py.split sep s = [s].
Proof.
  induction s as [|c s IH]; [done|]. simpl. intros H.
  apply orb_false_iff in H as [Hc Hs]. apply bool_decide_eq_false in Hc.
  destruct (decide (c = sep)); [done|]. by rewrite IH.
Qed.

(** The first piece ends at the first separator. *)
Lemma split_app sep s r :
  Py.contains sep s = false →
  Py.split sep (s +:+ String sep r) = s :: Py.split sep r.
Proof.
  induction s as [|c s IH]; intros H.
  - rewrite app_empty_l. simpl. by destruct (decide (sep = sep)).
  - simpl in H. apply orb_false_iff in H as [Hc Hs].
    apply bool_decide_eq_false in Hc.
    rewrite app_cons. simpl. destruct (decide (c = sep)); [done|].
    by rewrite IH.
Qed.

(** No piece holds the separator, and the pieces with the
    separators put back are the string. *)
Lemma split_pieces sep s :
  Forall (λ p, Py.contains sep p = false) (Py.split sep s).
Proof.
  induction s as [|c s IH]; simpl; [by repeat constructor|].
  destruct (decide (c = sep)) as [->|Hc]; [by constructor|].
  assert (bool_decide (c = sep) = false) as Hb by by apply bool_decide_eq_false.
  destruct (Py.split sep s) as [|p ps].
  - repeat constructor. simpl. by rewrite Hb.
  - inversion_clear IH as [|?? Hp Hps]. constructor; [|done].
    simpl. by rewrite Hp, Hb.
Qed.

Lemma join_split sep s : Py.join (String sep EmptyString) (Py.split sep s) = s.
Proof.
  induction s as [|c s IH]; [done|]. simpl.
  destruct (decide (c = sep)) as [->|Hc].
  - pose proof (split_not_nil sep s).
    destruct (Py.split sep s) as [|p ps] eqn:E; [done|].
    change (Py.join _ (EmptyString :: p :: ps))
      with (String sep (Py.join (String sep EmptyString) (p :: ps))).
    by rewrite IH.
  - destruct (Py.split sep s) as [|p ps] eqn:E.
    + by destruct (split_not_nil sep s).
    + rewrite <- IH. by destruct ps.
Qed.

(** Pieces without the separator are found again after a [join]. *)
Lemma split_join sep ps :
  ps ≠ [] →
  Forall (λ p, Py.contains sep p = false) ps →
  Py.split sep (Py.join (String sep EmptyString) ps) = ps.
Proof.
  intros Hne Hps. induction Hps as [|p ps Hp Hps IH]; [done|].
  destruct ps as [|p' ps]; [by apply split_no_sep|].
  change (Py.join (String sep EmptyString) (p :: p' :: ps))
    with (p +:+ String sep (Py.join (String sep EmptyString) (p' :: ps))).
  rewrite split_app by done. by rewrite IH.
Qed.

End StringFacts.

(** ** The monad *)

Section MonadFacts.

Context {A B : Type}.

Lemma bind_inr (t : list Event) (a : A) (f : A → M B) :
  (t, inr a) ≫= f = (t ++ (f a).1, (f a).2).
Proof. unfold mbind, M_bind. by destruct (f a). Qed.

Lemma bind_inl (t : list Event) (e : exn) (f : A → M B) :
  (t, inl e) ≫= f = (t, inl e).
Proof. reflexivity. Qed.

Lemma bind_ret (a : A) (f : A → M B) : mret a ≫= f = f a.
Proof. unfold mret, M_ret. rewrite bind_inr. by destruct (f a). Qed.

Lemma bind_raise (e : exn) (f : A → M B) : raise e ≫= f = raise e.
Proof. reflexivity. Qed.


(** The accumulating loop of [call_tool] appends one line per row. *)
Lemma foldl_append (f : A → B) (init : list B) (l : list A) :
  foldl (λ output row, output ++ [f row]) init l = init ++ (f <$> l).
Proof.
  revert init. induction l as [|x l IH]; intros init; simpl.
  - by rewrite app_nil_r.
  - by rewrite IH, <- app_assoc.
Qed.

End MonadFacts.

(** ** Connection configuration *)

Section Configuration.

Variable w : World.

Lemma get_clickhouse_client_no_args :
  get_clickhouse_client w None None None None None =
  n ← int w (getenv w "CLICKHOUSE_PORT" "8123"); call_get_client w (env_params w n).
Proof. reflexivity. Qed.

(** Acquiring the client sends no statement: the driver's
    [get_client] is called once, or not at all when [int] raises for
    the port of the environment. *)
Lemma get_clickhouse_client_trace host port username password database :
  let m := get_clickhouse_client w host port username password database in
  (∃ p, trace m = [GetClient p] ∧ outcome m = get_client w p)
  ∨ (trace m = [] ∧ ∃ e, outcome m = inl e).
Proof.
  unfold get_clickhouse_client, or_port, int.
  destruct port as [p|]; [destruct (p =? 0)|];
    try destruct (int_of _ _); rewrite ?bind_ret, ?bind_raise;
    (left; eexists; split; reflexivity) || (right; split; [done|eauto]).
Qed.

Lemma get_clickhouse_client_ok_trace host port username password database tr client :
  get_clickhouse_client w host port username password database = (tr, inr client) →
  ∃ p, tr = [GetClient p] ∧ get_client w p = inr client.
Proof.
  intros H.
  destruct (get_clickhouse_client_trace host port username password database)
    as [(p & Ht & Ho)|(Ht & msg & Ho)];
    unfold trace, outcome in *; rewrite H in *; simpl in *; [eauto|done].
Qed.

End Configuration.

(** ** Query gateway *)

Section Gateway.

Variable w : World.
Implicit Types (q : string) (arguments : gmap string PyVal).

(** A query that meets the gate is not empty. *)
Lemma gate_nonempty q : gate (builtins w) q = true → q ≠ EmptyString.
Proof.
  intros H ->. unfold gate in H.
  by rewrite strip_empty, upper_empty in H.
Qed.

(** Past the two argument checks, [call_tool] is its gate and its
    [try] block. *)
Lemma call_tool_query q arguments :
  arguments !! "query" = Some (PStr q) → q ≠ EmptyString →
  call_tool w "execute_select_query" arguments =
  if negb (gate (builtins w) q) then mret [text_block only_select]
  else try_except (execute w q)
         (λ e, mret [text_block ("Error executing query: " +:+ exn_str e)]).
Proof.
  intros Hq Hne. unfold call_tool. rewrite Hq. simpl.
  by rewrite bool_decide_eq_false_2.
Qed.

(** The [try] block once the client is there and the store has
    answered. *)
Lemma execute_ok q tr client r :
  get_clickhouse_client w None None None None None = (tr, inr client) →
  query client q = inr r →
  execute w q = (tr ++ [Query q], inr [text_block (render r)]).
Proof.
  intros Hc Hr. unfold execute, run_query. rewrite Hc, bind_inr, Hr. simpl.
  by rewrite foldl_append.
Qed.

Lemma execute_query_raises q tr client e :
  get_clickhouse_client w None None None None None = (tr, inr client) →
  query client q = inl e →
  execute w q = (tr ++ [Query q], inl e).
Proof. intros Hc Hr. unfold execute, run_query. by rewrite Hc, bind_inr, Hr. Qed.

(** The lines of a serialised result are the header and the rows,
    when no name and no value holds a newline. *)
Lemma render_lines r :
  let lines := Py.join Py.tab (column_names r)
                 :: ((λ row, Py.join Py.tab (str <$> row)) <$> result_rows r) in
  Forall (λ line, Py.contains "010" line = false) lines →
  Py.split "010" (render r) = lines.
Proof. intros lines H. by apply (split_join "010"). Qed.

(** C1.  For every query string that reaches the gate (the check
    before it has stopped the empty one) and whose stripped,
    upper-cased form does not start with SELECT,
    [call_tool "execute_select_query"] does not raise and makes no
    call to the driver: it returns exactly one text block whose body
    is "Error: Only SELECT queries are allowed.".  [strip] and
    [upper] are the built-ins of the world, whatever their tables. *)
Theorem call_tool_rejects_non_select q arguments :
  arguments !! "query" = Some (PStr q) →
  q ≠ EmptyString →
  gate (builtins w) q = false →
  call_tool w "execute_select_query" arguments =
    ([], inr [{| type := "text";
                 text := "Error: Only SELECT queries are allowed." |}]).
Proof. intros Hq Hne Hg. by rewrite (call_tool_query q), Hg. Qed.

(** C2 (as amended).  For every query that passes the gate and whose
    execution raises an exception [e], in the acquisition of the
    client or in the store, [call_tool] does not raise: it returns
    exactly one text block whose body is "Error executing query: "
    followed by the message of [e], after the same calls to the
    driver. *)
Theorem call_tool_execution_error q arguments tr e :
  arguments !! "query" = Some (PStr q) →
  gate (builtins w) q = true →
  execute w q = (tr, inl e) →
  call_tool w "execute_select_query" arguments =
    (tr, inr [{| type := "text";
                 text := "Error executing query: " +:+ exn_str e |}]).
Proof.
  intros Hq Hg He.
  rewrite (call_tool_query q), Hg, He by eauto using gate_nonempty.
  simpl. by rewrite app_nil_r.
Qed.

(** C5.  For every query that passes the gate and that the store
    answers, [call_tool] returns one text block: the column names
    joined by tabs, then one line per row in the order of the store,
    every value through [str] and the values joined by tabs, the
    lines joined by newlines. *)
Theorem call_tool_select_output q arguments tr client r :
  arguments !! "query" = Some (PStr q) →
  gate (builtins w) q = true →
  get_clickhouse_client w None None None None None = (tr, inr client) →
  query client q = inr r →
  call_tool w "execute_select_query" arguments =
    (tr ++ [Query q],
     inr [{| type := "text";
             text := Py.join Py.newline
                       (Py.join Py.tab (column_names r)
                          :: ((λ row, Py.join Py.tab (str <$> row))
                                <$> result_rows r)) |}]).
Proof.
  intros Hq Hg Hc Hr.
  rewrite (call_tool_query q), Hg by eauto using gate_nonempty.
  by rewrite (execute_ok q tr client r).
Qed.

(** C9.  The gate is a test of the first six characters: for every
    query whose stripped, upper-cased form starts with SELECT,
    whatever follows, [call_tool] takes the [try] block instead of
    answering the rejection, so the client is asked for; once the
    client is there, the statement sent to the store is the query as
    it was given. *)
Theorem call_tool_gate_is_prefix q arguments :
  arguments !! "query" = Some (PStr q) →
  Py.startswith (str_upper (builtins w) (str_strip (builtins w) q)) "SELECT"
    = true →
  call_tool w "execute_select_query" arguments =
    try_except (execute w q)
      (λ e, mret [text_block ("Error executing query: " +:+ exn_str e)])
  ∧ (∀ tr client,
       get_clickhouse_client w None None None None None = (tr, inr client) →
       trace (call_tool w "execute_select_query" arguments) = tr ++ [Query q]).
Proof.
  intros Hq Hg.
  assert (call_tool w "execute_select_query" arguments =
          try_except (execute w q)
            (λ e, mret [text_block ("Error executing query: " +:+ exn_str e)]))
    as Hcall.
  { rewrite (call_tool_query q) by eauto using gate_nonempty.
    unfold gate. by rewrite Hg. }
  split; [done|]. intros tr client Hc. rewrite Hcall.
  destruct (query client q) as [e|r] eqn:Hr.
  - rewrite (execute_query_raises q tr client e) by done.
    simpl. by rewrite app_nil_r.
  - by rewrite (execute_ok q tr client r).
Qed.

(** C10.  When [arguments] maps the key query to a falsy value (the
    empty string, [None], [False], [0], an empty list or dict),
    [call_tool "execute_select_query"] raises the ValueError "Query is
    required", as it does when the key is absent, and makes no call to
    the driver. *)
Theorem call_tool_falsy_query arguments v :
  arguments !! "query" = Some v →
  truthy v = false →
  call_tool w "execute_select_query" arguments =
    ([], inl (ValueError "Query is required"))
  ∧ call_tool w "execute_select_query" arguments =
    call_tool w "execute_select_query" (delete "query" arguments).
Proof.
  intros Hq Hv. unfold call_tool.
  rewrite Hq, lookup_delete_eq. simpl. by rewrite Hv.
Qed.

End Gateway.

(** ** Resolution of the connection parameters *)

Section Resolution.

Variable w : World.

Lemma or_str_first_truthy arg key dflt :
  or_str arg (getenv w key dflt) = first_truthy nonempty arg (environ w !! key) dflt.
Proof. unfold getenv. by destruct arg as [[|c s]|], (environ w !! key). Qed.

(** C8 (as amended).  Every connection parameter is the first of:
    the explicit argument when it is truthy (a non-empty string, a
    port other than 0), the environment variable when it is set, the
    default (localhost, 8123, default, the empty string, default).
    The port of the environment, or its default, goes through [int],
    and only when no truthy port is passed; when [int] raises, its
    exception is raised and [get_client] is not called.  In
    particular explicit arguments that are all truthy are passed to
    [get_client] as they are, whatever the environment. *)
Theorem get_clickhouse_client_resolution host port username password database :
  get_clickhouse_client w host port username password database =
    match resolved_port w port with
    | inr n => call_get_client w (resolved w host username password database n)
    | inl e => raise e
    end
  ∧ (∀ h p u pw d,
       host = Some h → port = Some p → username = Some u →
       password = Some pw → database = Some d →
       nonempty h = true → nonzero p = true → nonempty u = true →
       nonempty pw = true → nonempty d = true →
       get_clickhouse_client w host port username password database =
         call_get_client w {| host := h; port := p; username := u;
                               password := pw; database := d |}).
Proof.
  split.
  - unfold get_clickhouse_client, resolved, resolved_port.
    rewrite !or_str_first_truthy.
    unfold or_port, int, getenv, port_text, nonzero.
    destruct port as [p|]; [destruct (p =? 0) eqn:Hp|];
      try destruct (int_of _ _) as [e|n]; simpl;
      by rewrite ?bind_ret, ?bind_raise.
  - intros h p u pw d -> -> -> -> -> Hh Hp Hu Hpw Hd.
    unfold get_clickhouse_client, or_port. unfold nonzero in Hp.
    apply negb_true_iff in Hp. rewrite Hp, bind_ret.
    by destruct h, u, pw, d.
Qed.

End Resolution.

(** ** Resource identifiers *)

Section Identifiers.

Implicit Types (u database table : string).

Lemma segments_table_list database :
  Py.contains "/" database = false →
  segments ("clickhouse://" +:+ database +:+ "/tables") = [database; "tables"].
Proof.
  intros H. unfold segments. rewrite slice_from_app.
  by rewrite (split_app "/" database "tables").
Qed.

Lemma segments_schema database table :
  Py.contains "/" database = false →
  Py.contains "/" table = false →
  segments ("clickhouse://" +:+ database +:+ "/" +:+ table +:+ "/schema")
  = [database; table; "schema"].
Proof.
  intros Hd Ht. unfold segments. rewrite slice_from_app.
  change ("/" +:+ table +:+ "/schema") with (String "/" (table +:+ "/schema")).
  rewrite (split_app "/" database (table +:+ "/schema")) by done.
  by rewrite (split_app "/" table "schema").
Qed.

(** A string that has the scheme is the scheme and its segments
    with the slashes between them. *)
Lemma segments_join u :
  Py.startswith u "clickhouse://" = true →
  u = "clickhouse://" +:+ Py.join "/" (segments u).
Proof.
  intros H. unfold segments.
  rewrite (join_split "/"). by apply startswith_inv.
Qed.

Lemma is_table_list_iff u : is_table_list u = true ↔ table_list_identifier u.
Proof.
  unfold is_table_list. split.
  - intros [Hs Hp]%andb_true_iff. apply andb_true_iff in Hp as [Hl Hp].
    apply bool_decide_eq_true in Hl, Hp.
    pose proof (split_pieces "/" (Py.slice_from (String.length "clickhouse://") u)) as Hno.
    pose proof (segments_join u Hs) as Hu. fold (segments u) in Hno.
    destruct (segments u) as [|a [|b [|c ps]]]; simplify_eq/=.
    inversion_clear Hno. by exists a.
  - intros (database & Hd & ->). rewrite startswith_app.
    by rewrite (segments_table_list database).
Qed.

Lemma is_schema_iff u : is_schema u = true ↔ schema_identifier u.
Proof.
  unfold is_schema. split.
  - intros [Hs Hp]%andb_true_iff. apply andb_true_iff in Hp as [Hl Hp].
    apply bool_decide_eq_true in Hl, Hp.
    pose proof (split_pieces "/" (Py.slice_from (String.length "clickhouse://") u)) as Hno.
    pose proof (segments_join u Hs) as Hu. fold (segments u) in Hno.
    destruct (segments u) as [|a [|b [|c [|c' ps]]]]; simplify_eq/=.
    inversion_clear Hno as [|?? Ha Hno']. inversion_clear Hno' as [|?? Hb _].
    by exists a, b.
  - intros (database & table & Hd & Ht & ->). rewrite startswith_app.
    by rewrite (segments_schema database table).
Qed.

End Identifiers.

(** ** Catalog resolver: reading a resource *)

Lemma mapM_Forall2 {A B} (f : A → M B) (l : list A) (k : list B) :
  Forall2 (λ x y, f x = mret y) l k → mapM f l = mret k.
Proof.
  induction 1 as [|x y l k Hx _ IH]; [done|].
  change (mapM f (x :: l)) with (y ← f x; k ← mapM f l; mret (y :: k)).
  by rewrite Hx, IH.
Qed.

Lemma run_query_inr client sql r :
  query client sql = inr r → run_query client sql = ([Query sql], inr r).
Proof. intros H. unfold run_query. by rewrite H. Qed.

Lemma item_Some {A} (row : list A) (i : nat) (x : A) :
  row !! i = Some x → item row i = mret x.
Proof. intros H. unfold item. by rewrite H. Qed.

Section ReadResource.

Variable w : World.
Implicit Types (u database table : string).

(** When the acquisition of the client raises, that exception is the
    outcome of [read_resource], whatever the identifier. *)
Lemma read_resource_acquisition_error u tr e :
  get_clickhouse_client w None None None None None = (tr, inl e) →
  read_resource w (mkAnyUrl u) = (tr, inl e).
Proof. intros Hc. unfold read_resource. by rewrite Hc. Qed.

(** For every identifier that matches neither shape,
    [read_resource] sends no statement to the store and, once the
    client it asks for on entry is there, raises a ValueError:
    "Invalid URI scheme: ..." when the identifier does not start with
    clickhouse://, "Invalid resource URI: ..." when it does. *)
Lemma read_resource_invalid_identifier u :
  ¬ table_list_identifier u →
  ¬ schema_identifier u →
  let m := read_resource w (mkAnyUrl u) in
  Forall (λ ev, is_query ev = false) (trace m)
  ∧ (∀ tr client,
       get_clickhouse_client w None None None None None = (tr, inr client) →
       m = (tr, inl (ValueError
                       (if Py.startswith u "clickhouse://"
                        then "Invalid resource URI: " +:+ u
                        else "Invalid URI scheme: " +:+ u)))).
Proof.
  intros Ht Hs.
  assert (is_table_list u = false) as Ht'.
  { destruct (is_table_list u) eqn:E; [|done]. by apply is_table_list_iff in E. }
  assert (is_schema u = false) as Hs'.
  { destruct (is_schema u) eqn:E; [|done]. by apply is_schema_iff in E. }
  unfold is_table_list, is_schema, segments in Ht', Hs'.
  assert (∀ tr client,
    get_clickhouse_client w None None None None None = (tr, inr client) →
    read_resource w (mkAnyUrl u)
    = (tr, inl (ValueError
                  (if Py.startswith u "clickhouse://"
                   then "Invalid resource URI: " +:+ u
                   else "Invalid URI scheme: " +:+ u)))) as Hok.
  { intros tr client Hc. unfold read_resource. rewrite Hc, bind_inr. simpl.
    destruct (Py.startswith u "clickhouse://"); simpl in *.
    - rewrite Ht', Hs'. simpl. by rewrite app_nil_r.
    - by rewrite app_nil_r. }
  simpl. split; [|done].
  destruct (get_clickhouse_client_trace w None None None None None)
    as [(p & Hp & _)|(Hp & _)]; unfold trace in *;
    destruct (get_clickhouse_client w None None None None None)
      as [tr [e|client]] eqn:Hc; simpl in Hp; subst tr;
    rewrite ?(read_resource_acquisition_error _ _ _ Hc), ?(Hok _ _ eq_refl);
    by repeat constructor.
Qed.

(** C6.  For every schema identifier clickhouse://database/table/schema
    for which the client is there and the store answers the
    DESCRIBE statement with rows that start with a name and a type,
    [read_resource] returns the lines "name - type", one per row in
    the order of the store, joined by newlines, without a header. *)
Theorem read_resource_schema database table tr client r
    (cols : list (string * string)) :
  Py.contains "/" database = false →
  Py.contains "/" table = false →
  get_clickhouse_client w None None None None None = (tr, inr client) →
  query client ("DESCRIBE TABLE " +:+ database +:+ "." +:+ table) = inr r →
  Forall2 (λ row c, row !! 0%nat = Some (SStr c.1) ∧ row !! 1%nat = Some (SStr c.2))
          (result_rows r) cols →
  read_resource w
    (mkAnyUrl ("clickhouse://" +:+ database +:+ "/" +:+ table +:+ "/schema"))
  = (tr ++ [Query ("DESCRIBE TABLE " +:+ database +:+ "." +:+ table)],
     inr (Py.join Py.newline ((λ c, c.1 +:+ " - " +:+ c.2) <$> cols))).
Proof.
  intros Hd Ht Hc Hr Hrows. unfold read_resource.
  rewrite Hc, bind_inr. unfold url_str. cbv beta zeta.
  rewrite startswith_app.
  change (Py.split "/" (Py.slice_from _ ?x)) with (segments x).
  rewrite (segments_schema database table) by done.
  cbn [negb length].
  rewrite (bool_decide_eq_false_2 (3 = 2)%nat) by done.
  rewrite (bool_decide_eq_true_2 (3 = 3)%nat) by done.
  rewrite (bool_decide_eq_true_2 (_ !! 2%nat = Some "schema")) by done.
  cbn [andb].
  rewrite (item_Some _ 0 database), bind_ret by done.
  rewrite (item_Some _ 1 table), bind_ret by done.
  unfold run_query. rewrite Hr, bind_inr.
  rewrite (mapM_Forall2 _ _ ((λ c, c.1 +:+ " - " +:+ c.2) <$> cols)).
  - by rewrite bind_ret.
  - apply Forall2_fmap_r. eapply Forall2_impl; [exact Hrows|].
    intros row c [H0 H1]. cbv beta.
    by rewrite (item_Some _ _ _ H0), bind_ret, (item_Some _ _ _ H1), bind_ret.
Qed.

End ReadResource.

(** ** Catalog resolver: listing the resources *)


Lemma Forall2_and_r {A K} (P : A → K → Prop) (Q : K → Prop) (l : list A) (k : list K) :
  Forall2 P l k → (∀ y, y ∈ k → Q y) → Forall2 (λ x y, P x y ∧ Q y) l k.
Proof.
  induction 1 as [|x y l k Hx _ IH]; intros HQ; constructor.
  - split; [done|]. apply HQ. by left.
  - apply IH. intros z Hz. apply HQ. by right.
Qed.

Lemma bind_singletons {A B} (f : A → B) (l : list A) : l ≫= (λ x, [f x]) = f <$> l.
Proof. induction l as [|x l IH]; [done|]. by rewrite bind_cons, IH. Qed.

(** ** Runs that keep an invariant *)

Lemma satisfies_ret {A} (E : Event → Prop) (P : A → Prop) (a : A) :
  P a → satisfies E P (mret a).
Proof. intros Ha. split; [constructor|]. by intros ? [= <-]. Qed.

Lemma satisfies_raise {A} (E : Event → Prop) (P : A → Prop) (e : exn) :
  satisfies E P (raise e).
Proof. split; [constructor|]. by intros ? [=]. Qed.

Lemma satisfies_bind {A B} (E : Event → Prop) (P : A → Prop) (Q : B → Prop)
    (m : M A) (f : A → M B) :
  satisfies E P m →
  (∀ a, P a → satisfies E Q (f a)) →
  satisfies E Q (m ≫= f).
Proof.
  unfold satisfies, trace, outcome. destruct m as [t [e|a]].
  - intros [Ht _] _. split; [exact Ht|]. by intros ? [=].
  - intros [Ht Ha] Hf. rewrite bind_inr. cbn [fst snd] in *.
    destruct (Hf a (Ha a eq_refl)) as [Ht' Hb]. split; [|done].
    by apply Forall_app.
Qed.

Lemma satisfies_mapM {A B} (E : Event → Prop) (P : B → Prop)
    (f : A → M B) (l : list A) :
  (∀ x, satisfies E P (f x)) → satisfies E (Forall P) (mapM f l).
Proof.
  intros Hf. induction l as [|x l IH]; [by apply satisfies_ret|].
  change (mapM f (x :: l)) with (y ← f x; k ← mapM f l; mret (y :: k)).
  eapply satisfies_bind; [apply Hf|]. intros y Hy.
  eapply satisfies_bind; [apply IH|]. intros k Hk.
  apply satisfies_ret. by constructor.
Qed.

Lemma satisfies_for_each {A S} (E : Event → Prop) (P : S → Prop)
    (body : A → S → M S) (l : list A) (s : S) :
  P s →
  (∀ x s, P s → satisfies E P (body x s)) →
  satisfies E P (for_each l body s).
Proof.
  intros Hs Hbody. revert s Hs. induction l as [|x l IH]; intros s Hs.
  - by apply satisfies_ret.
  - change (for_each (x :: l) body s) with (s' ← body x s; for_each l body s').
    eapply satisfies_bind; [by apply Hbody|]. intros s' Hs'. by apply IH.
Qed.

Lemma satisfies_item {A} E (row : list A) i : satisfies E (λ _, True) (item row i).
Proof. unfold item. destruct (row !! i); [by apply satisfies_ret|apply satisfies_raise]. Qed.

Lemma satisfies_run_query E client sql :
  E (Query sql) → satisfies E (λ _, True) (run_query client sql).
Proof. intros H. split; [by repeat constructor|done]. Qed.

Lemma satisfies_get_clickhouse_client E w host port username password database :
  (∀ p, E (GetClient p)) →
  satisfies E (λ _, True)
    (get_clickhouse_client w host port username password database).
Proof.
  intros HE. split; [|done].
  destruct (get_clickhouse_client_trace w host port username password database)
    as [(p & -> & _)|[-> _]]; by repeat constructor.
Qed.

Lemma statements_Forall {A} (P : string → Prop) (m : M A) :
  Forall (λ ev, match ev with GetClient _ => True | Query sql => P sql end) (trace m) →
  Forall P (statements m).
Proof.
  unfold statements. induction 1 as [|[p|sql] t Hev _ IH]; simpl; [done..|].
  by constructor.
Qed.

Lemma satisfies_item_out {A} E (row : list A) i :
  satisfies E (λ x, row !! i = Some x) (item row i).
Proof.
  unfold item. destruct (row !! i); [by apply satisfies_ret|apply satisfies_raise].
Qed.

Lemma satisfies_run_query_out E client sql :
  E (Query sql) →
  satisfies E (λ r, query client sql = inr r) (run_query client sql).
Proof.
  intros H. split; [by repeat constructor|].
  unfold run_query, outcome. simpl. by intros r ->.
Qed.

Lemma satisfies_get_client_out E w host port username password database :
  (∀ p, E (GetClient p)) →
  satisfies E (λ client, ∃ p, get_client w p = inr client)
    (get_clickhouse_client w host port username password database).
Proof.
  intros HE.
  destruct (get_clickhouse_client_trace w host port username password database)
    as [(p & Ht & Ho)|[Ht [e Ho]]]; (split; [rewrite Ht; by repeat constructor|]).
  - intros client Hc. exists p. by rewrite <- Ho.
  - intros client Hc. congruence.
Qed.

Lemma satisfies_new_AnyUrl E w text :
  satisfies E (λ uri, any_url w text = inr uri) (new_AnyUrl w text).
Proof. split; [constructor|]. by intros uri H. Qed.

Lemma satisfies_for_each_elem {A S} (E : Event → Prop) (P : S → Prop)
    (body : A → S → M S) (l : list A) (s : S) :
  P s →
  (∀ x s, x ∈ l → P s → satisfies E P (body x s)) →
  satisfies E P (for_each l body s).
Proof.
  intros Hs Hbody. revert s Hs. induction l as [|x l IH]; intros s Hs.
  - by apply satisfies_ret.
  - change (for_each (x :: l) body s) with (s' ← body x s; for_each l body s').
    eapply satisfies_bind; [apply Hbody; [by left|done]|]. intros s' Hs'.
    apply IH; [|done]. intros y s0 Hy. apply Hbody. by right.
Qed.

Lemma new_AnyUrl_inr w text uri :
  any_url w text = inr uri → new_AnyUrl w text = mret uri.
Proof. intros H. unfold new_AnyUrl. by rewrite H. Qed.

Lemma new_AnyUrl_inl w text e :
  any_url w text = inl e → new_AnyUrl w text = raise e.
Proof. intros H. unfold new_AnyUrl. by rewrite H. Qed.

Section ListResources.

Variable w : World.
Variable url : string → AnyUrl.

(** One round of the loop over the databases, [AnyUrl] making
    [url text] of every text it is given in the round. *)
Lemma list_resources_round client db d r' tables (resources : list Resource) :
  db !! 0%nat = Some (SStr d) →
  any_url w (tables_text d) = inr (url (tables_text d)) →
  query client ("SHOW TABLES FROM " +:+ d) = inr r' →
  Forall2 (λ row t, row !! 0%nat = Some (SStr t)) (result_rows r') tables →
  (∀ t, t ∈ tables → any_url w (schema_text d t) = inr (url (schema_text d t))) →
  (database ← item db 0;
   uri ← new_AnyUrl w (tables_text (str database));
   let resources := resources ++ [tables_resource uri (str database)] in
   table_result ← run_query client ("SHOW TABLES FROM " +:+ str database);
   extension ← mapM (λ table,
       table_0 ← item table 0;
       uri ← new_AnyUrl w (schema_text (str database) (str table_0));
       mret (schema_resource uri (str database) (str table_0)))
     (result_rows table_result);
   mret (resources ++ extension))
  = ([Query ("SHOW TABLES FROM " +:+ d)],
     inr (resources ++ database_resources url d tables)).
Proof.
  intros Hdb Hu Hr Hrows Hus.
  rewrite (item_Some _ _ _ Hdb), bind_ret. change (str (SStr d)) with d.
  rewrite (new_AnyUrl_inr _ _ _ Hu), bind_ret. cbv zeta.
  rewrite (run_query_inr _ _ _ Hr), bind_inr.
  rewrite (mapM_Forall2 _ _
             ((λ t, schema_resource (url (schema_text d t)) d t) <$> tables)).
  - rewrite bind_ret. unfold database_resources. simpl.
    by rewrite <- app_assoc.
  - apply Forall2_fmap_r.
    eapply Forall2_impl; [exact (Forall2_and_r _ _ _ _ Hrows Hus)|].
    intros row t [Ht Hut]. cbv beta.
    rewrite (item_Some _ _ _ Ht), bind_ret. change (str (SStr t)) with t.
    by rewrite (new_AnyUrl_inr _ _ _ Hut), bind_ret.
Qed.



End ListResources.

(** ** The databases that are listed *)

Lemma databases_listing_db_query : Sql.databases_listing db_query = Some not_in.
Proof. vm_compute. reflexivity. Qed.


Lemma show_tables_inj d d' :
  "SHOW TABLES FROM " +:+ d = "SHOW TABLES FROM " +:+ d' → d = d'.
Proof.
  intros H. apply (f_equal (Py.slice_from (String.length "SHOW TABLES FROM "))) in H.
  by rewrite !slice_from_app in H.
Qed.

Lemma show_tables_not_db_query d : "SHOW TABLES FROM " +:+ d ≠ db_query.
Proof. intros H. rewrite app_cons in H. discriminate H. Qed.

Section ListedDatabases.

Variables (env : gmap string string) (py : Builtins).
Variables (url : string → exn + AnyUrl) (cat : list Database).

Lemma catalog_db_query :
  catalog_query cat db_query = inr (list_databases cat not_in).
Proof. unfold catalog_query. by rewrite databases_listing_db_query. Qed.

Lemma listed_databases_rows :
  Forall2 (λ row d, row !! 0%nat = Some (SStr d))
          (result_rows (list_databases cat not_in)) (listed_databases cat).
Proof.
  simpl. unfold listed_databases.
  apply Forall2_fmap, Forall_Forall2_diag, Forall_forall. done.
Qed.



Lemma listed_databases_not_in d :
  d ∈ listed_databases cat → (d ∉ not_in) ∧ d ∈ database_name <$> cat.
Proof.
  intros (x & -> & [Hx Hin]%list_elem_of_filter)%list_elem_of_fmap.
  split; [done|]. by apply list_elem_of_fmap_2.
Qed.

(** Along a run against the catalog, whatever the built-ins and the
    URL type: the statements are the listing of [db_query] and SHOW
    TABLES for names that listing lets through, and every descriptor
    is built for such a name. *)
Lemma list_resources_listed :
  satisfies (listing_event cat)
    (Forall (λ r, ∃ d, d ∈ listed_databases cat
                       ∧ descriptor_of (catalog_world_with env py url cat) d r))
    (list_resources (catalog_world_with env py url cat)).
Proof.
  unfold list_resources.
  eapply satisfies_bind; [by apply satisfies_get_client_out|].
  intros client [p Hp]. simpl in Hp. injection Hp as <-. cbv zeta.
  eapply satisfies_bind; [apply satisfies_run_query_out; by left|].
  intros db_result Hdb. simpl in Hdb. rewrite catalog_db_query in Hdb.
  injection Hdb as <-.
  apply satisfies_for_each_elem; [constructor|].
  intros db resources Hin Hres.
  apply list_elem_of_fmap in Hin as (x & -> & Hx).
  assert (database_name x ∈ listed_databases cat) as Hl.
  { unfold listed_databases. by apply list_elem_of_fmap_2. }
  rewrite (item_Some _ 0 (SStr (database_name x))), bind_ret by done.
  change (str (SStr (database_name x))) with (database_name x).
  eapply satisfies_bind; [apply satisfies_new_AnyUrl|]. intros uri Huri. cbv zeta.
  eapply satisfies_bind; [apply satisfies_run_query; right; by eexists|].
  intros table_result _.
  eapply satisfies_bind.
  { apply (satisfies_mapM _
             (λ r, ∃ d, d ∈ listed_databases cat
                        ∧ descriptor_of (catalog_world_with env py url cat) d r)).
    intros table. eapply satisfies_bind; [apply satisfies_item|].
    intros table_0 _.
    eapply satisfies_bind; [apply satisfies_new_AnyUrl|]. intros uri' Huri'.
    apply satisfies_ret. exists (database_name x). split; [done|].
    right. by exists (str table_0), uri'. }
  intros extension Hext. apply satisfies_ret.
  apply Forall_app. split; [|done].
  apply Forall_app. split; [done|]. constructor; [|constructor].
  exists (database_name x). split; [done|]. left. by exists uri.
Qed.

(** C4 (as amended).  The databases left out are those whose name
    is, character for character, one of the three names the store
    reads after NOT IN in the statement: system, information_schema
    and INFORMATION_SCHEMA.  Whatever the catalog of the store, every
    descriptor in the result of [list_resources] was built for a
    database of the catalog whose name is none of the three; and for
    each of the three names no descriptor has the name of its table
    list and the store is not asked for its tables. *)
Theorem list_resources_omits_reserved tr rs :
  list_resources (catalog_world_with env py url cat) = (tr, inr rs) →
  (∀ r, r ∈ rs →
     ∃ d, (d ∉ not_in) ∧ d ∈ database_name <$> cat
          ∧ descriptor_of (catalog_world_with env py url cat) d r)
  ∧ ∀ d, d ∈ not_in →
      (Query ("SHOW TABLES FROM " +:+ d) ∉ tr)
      ∧ ∀ r, r ∈ rs → name r ≠ "Database: " +:+ d.
Proof.
  intros Hl. destruct list_resources_listed as [Htr Hrs].
  unfold trace, outcome in Htr, Hrs. rewrite Hl in Htr, Hrs. simpl in Htr, Hrs.
  specialize (Hrs rs eq_refl).
  rewrite Forall_forall in Htr. rewrite Forall_forall in Hrs.
  assert (∀ r, r ∈ rs →
            ∃ d, (d ∉ not_in) ∧ d ∈ database_name <$> cat
                 ∧ descriptor_of (catalog_world_with env py url cat) d r) as Hall.
  { intros r Hr. destruct (Hrs r Hr) as (d & Hd & Hdesc).
    destruct (listed_databases_not_in d Hd). by exists d. }
  split; [exact Hall|]. intros d Hd. split.
  - intros [E|(d' & Hd' & E)]%Htr.
    + by apply show_tables_not_db_query in E.
    + apply show_tables_inj in E. subst d'.
      by destruct (listed_databases_not_in d Hd').
  - intros r Hr Hn. destruct (Hall r Hr) as (d' & Hd' & _ & Hdesc).
    destruct Hdesc as [(uri & _ & ->)|(table & uri & _ & ->)]; simpl in Hn.
    + assert (d' = d) as ->; [|done].
      apply (f_equal (Py.slice_from (String.length "Database: "))) in Hn.
      by rewrite !slice_from_app in Hn.
    + rewrite !app_cons in Hn. discriminate Hn.
Qed.

End ListedDatabases.

(** * Concrete runs *)

(** ** The gate *)

Lemma call_tool_rejects_non_select_witness :
  gate ascii_builtins insert_query = false
  ∧ call_tool reachable "execute_select_query" (only_query (PStr insert_query))
    = ([], inr [{| type := "text";
                   text := "Error: Only SELECT queries are allowed." |}]).
Proof.
  split; [reflexivity|].
  apply (call_tool_rejects_non_select reachable insert_query);
    [reflexivity | discriminate | reflexivity].
Defined.

(** The empty query does not come to the gate: the check before it
    raises. *)
Example call_tool_empty_query :
  call_tool reachable "execute_select_query" (only_query (PStr EmptyString))
  = ([], inl (ValueError "Query is required")).
Proof. reflexivity. Qed.

(** A query of white space alone is not empty, and is rejected. *)
Example call_tool_blank_query :
  call_tool reachable "execute_select_query" (only_query (PStr "   "))
  = ([], inr [text_block only_select]).
Proof. reflexivity. Qed.

(** ** Errors of the execution *)

Lemma call_tool_execution_error_witness :
  gate ascii_builtins "SELECT * FROM missing" = true
  ∧ execute failing "SELECT * FROM missing"
    = ([GetClient default_params; Query "SELECT * FROM missing"],
       inl (DriverError "Table default.missing doesn't exist"))
  ∧ call_tool failing "execute_select_query"
      (only_query (PStr "SELECT * FROM missing"))
    = ([GetClient default_params; Query "SELECT * FROM missing"],
       inr [{| type := "text";
               text := "Error executing query: Table default.missing doesn't exist" |}]).
Proof.
  split; [reflexivity|]. split; [reflexivity|].
  apply (call_tool_execution_error failing "SELECT * FROM missing" _
           [GetClient default_params; Query "SELECT * FROM missing"]
           (DriverError "Table default.missing doesn't exist"));
    reflexivity.
Defined.

(** C2, as it is stated, fails on every such error: the text of the
    source has no colon after Error. *)
Lemma call_tool_execution_error_text :
  gate ascii_builtins "SELECT * FROM missing" = true
  ∧ outcome (execute failing "SELECT * FROM missing")
    = inl (DriverError "Table default.missing doesn't exist")
  ∧ outcome (call_tool failing "execute_select_query"
               (only_query (PStr "SELECT * FROM missing")))
    ≠ inr [{| type := "text";
              text := "Error: executing query: Table default.missing doesn't exist" |}].
Proof. split; [reflexivity|]. split; [reflexivity|discriminate]. Qed.

(** An unreachable store is reported the same way. *)
Example call_tool_unreachable :
  call_tool (unreachable_world ∅ "Connection refused") "execute_select_query"
    (only_query (PStr "SELECT 1"))
  = ([GetClient default_params],
     inr [text_block "Error executing query: Connection refused"]).
Proof. reflexivity. Qed.

(** ** The output of a query *)

Lemma call_tool_select_output_witness :
  call_tool (fixed_world ∅ (inr test_result)) "execute_select_query"
    (only_query (PStr "SELECT * FROM test_table ORDER BY value"))
  = ([GetClient default_params; Query "SELECT * FROM test_table ORDER BY value"],
     inr [{| type := "text";
             text :=
               "id" +:+ Py.tab +:+ "name" +:+ Py.tab +:+ "value" +:+ Py.newline
               +:+ "0b0e7a52-5d2c-4c0e-9d0a-1f2e3d4c5b6a" +:+ Py.tab
               +:+ "Test 1" +:+ Py.tab +:+ "10" +:+ Py.newline
               +:+ "6f1d2c3b-4a59-4e87-8c6d-7e8f9a0b1c2d" +:+ Py.tab
               +:+ "Test 2" +:+ Py.tab +:+ "20" |}]).
Proof.
  apply (call_tool_select_output (fixed_world ∅ (inr test_result))
           "SELECT * FROM test_table ORDER BY value" _
           [GetClient default_params] {| query := λ _, inr test_result |} test_result);
    reflexivity.
Defined.

(** ** The gate is a test of a prefix *)

Lemma call_tool_gate_is_prefix_witness :
  Py.startswith (Py.upper (Py.strip "SELECTfoo")) "SELECT" = true
  ∧ trace (call_tool reachable "execute_select_query" (only_query (PStr "SELECTfoo")))
    = [GetClient default_params; Query "SELECTfoo"].
Proof.
  split; [reflexivity|].
  destruct (call_tool_gate_is_prefix reachable "SELECTfoo"
              (only_query (PStr "SELECTfoo")) eq_refl eq_refl) as [_ H].
  apply (H [GetClient default_params] (catalog_client test_catalog)).
  reflexivity.
Defined.

Example call_tool_selected :
  call_tool (fixed_world ∅ (inr test_result)) "execute_select_query"
    (only_query (PStr "  selected FROM t"))
  = ([GetClient default_params; Query "  selected FROM t"],
     inr [text_block (render test_result)]).
Proof. reflexivity. Qed.

(** ** A falsy query *)

Lemma call_tool_falsy_query_witness :
  call_tool reachable "execute_select_query" (only_query (PStr EmptyString))
  = ([], inl (ValueError "Query is required"))
  ∧ call_tool reachable "execute_select_query" (only_query (PStr EmptyString))
    = call_tool reachable "execute_select_query" ∅.
Proof.
  destruct (call_tool_falsy_query reachable (only_query (PStr EmptyString))
              (PStr EmptyString) eq_refl eq_refl) as [H1 H2].
  split; [exact H1|exact H2].
Defined.

Example call_tool_falsy_values :
  Forall (λ v, call_tool reachable "execute_select_query" (only_query v)
               = ([], inl (ValueError "Query is required")))
    [PNone; PBool false; PInt 0; PStr EmptyString; PList []; PDict []].
Proof. repeat constructor. Qed.

(** A truthy value that is no string has no [strip]. *)
Example call_tool_number :
  call_tool reachable "execute_select_query" (only_query (PInt 5))
  = ([], inl (AttributeError "'int' object has no attribute 'strip'")).
Proof. reflexivity. Qed.

(** ** Identifiers that match no shape *)

Example read_resource_invalid_shape :
  let m := read_resource reachable (mkAnyUrl "clickhouse://default/invalid") in
  Forall (λ ev, is_query ev = false) (trace m)
  ∧ m = ([GetClient default_params],
         inl (ValueError "Invalid resource URI: clickhouse://default/invalid")).
Proof.
  assert (¬ table_list_identifier "clickhouse://default/invalid") as Ht.
  { rewrite <- is_table_list_iff. vm_compute. discriminate. }
  assert (¬ schema_identifier "clickhouse://default/invalid") as Hs.
  { rewrite <- is_schema_iff. vm_compute. discriminate. }
  destruct (read_resource_invalid_identifier reachable
              "clickhouse://default/invalid" Ht Hs) as [Hq Hok].
  split; [exact Hq|].
  exact (Hok [GetClient default_params] (catalog_client test_catalog) eq_refl).
Qed.

Example read_resource_invalid_scheme :
  read_resource reachable (mkAnyUrl "invalid://default/test_table/schema")
  = ([GetClient default_params],
     inl (ValueError "Invalid URI scheme: invalid://default/test_table/schema")).
Proof. reflexivity. Qed.

(** C3.  The identifier invalid://default/test_table/schema matches
    neither shape and has not the scheme, and the test
    [test_invalid_resource_uri] expects the ValueError for it without
    a store at hand.  With a store that cannot be reached
    [read_resource] raises the exception of the driver instead: it
    asks for the client on its first line, before it looks at the
    identifier, and [get_client] has been called. *)
Theorem read_resource_invalid_unreachable :
  let u := "invalid://default/test_table/schema" in
  ¬ table_list_identifier u
  ∧ ¬ schema_identifier u
  ∧ read_resource (unreachable_world ∅ "Connection refused") (mkAnyUrl u)
    = ([GetClient default_params], inl (DriverError "Connection refused")).
Proof.
  simpl. split; [|split; [|reflexivity]].
  - rewrite <- is_table_list_iff. vm_compute. discriminate.
  - rewrite <- is_schema_iff. vm_compute. discriminate.
Qed.

(** The exception is that of [int], before [get_client] is called,
    when the port of the environment is no number. *)
Example read_resource_invalid_bad_port :
  read_resource (catalog_world {["CLICKHOUSE_PORT" := "abc"]} test_catalog)
    (mkAnyUrl "clickhouse://default/invalid")
  = ([], inl (ValueError "invalid literal for int() with base 10: 'abc'")).
Proof. reflexivity. Qed.

(** ** The schema of a table *)

Lemma read_resource_schema_witness :
  read_resource reachable (mkAnyUrl "clickhouse://default/t/schema")
  = ([GetClient default_params; Query "DESCRIBE TABLE default.t"],
     inr ("id - UUID" +:+ Py.newline +:+ "name - String")).
Proof.
  apply (read_resource_schema reachable "default" "t" [GetClient default_params]
           (catalog_client test_catalog)
           (describe_table {| table_name := "t";
                              table_columns := [("id", "UUID"); ("name", "String")] |})
           [("id", "UUID"); ("name", "String")]);
    try reflexivity.
  repeat constructor.
Defined.

(** ** The enumeration *)



(** ** The databases that are left out *)

Lemma list_resources_omits_reserved_witness :
  list_resources reachable = (reachable_events, inr reachable_resources)
  ∧ (Query "SHOW TABLES FROM system" ∉ reachable_events)
  ∧ (∀ r, r ∈ reachable_resources → name r ≠ "Database: system").
Proof.
  assert ("system" ∈ not_in) as Hd by (by left).
  assert (list_resources reachable = (reachable_events, inr reachable_resources))
    as Hl by reflexivity.
  split; [exact Hl|].
  destruct (list_resources_omits_reserved ∅ ascii_builtins plain_url test_catalog
              reachable_events reachable_resources Hl) as [_ H].
  exact (H "system" Hd).
Defined.

(** C4, as it is stated, fails for a database whose name is the
    system name in another letter case: the store keeps it, the
    store is asked for its tables and its descriptor is in the
    result. *)
Lemma list_resources_lists_upper_case_system :
  Py.lower "SYSTEM" = "system"
  ∧ ∃ tr rs,
      list_resources (catalog_world ∅ test_catalog) = (tr, inr rs)
      ∧ Query "SHOW TABLES FROM SYSTEM" ∈ tr
      ∧ ∃ r, r ∈ rs ∧ name r = "Database: SYSTEM"
             ∧ description r = "Tables in database: SYSTEM".
Proof.
  split; [reflexivity|]. eexists _, _. split; [reflexivity|]. split.
  - do 3 right. left.
  - eexists. split; [do 2 right; left|]. split; reflexivity.
Qed.

(** ** The connection parameters *)

Lemma get_clickhouse_client_resolution_witness :
  get_clickhouse_client (catalog_world secret_env test_catalog)
    (Some "db.example.org") (Some 9000) (Some "reader") (Some "pw") (Some "sales")
  = call_get_client (catalog_world secret_env test_catalog)
      {| host := "db.example.org"; port := 9000; username := "reader";
         password := "pw"; database := "sales" |}.
Proof.
  destruct (get_clickhouse_client_resolution (catalog_world secret_env test_catalog)
              (Some "db.example.org") (Some 9000) (Some "reader") (Some "pw")
              (Some "sales")) as [_ H].
  apply (H "db.example.org" 9000 "reader" "pw" "sales"); reflexivity.
Defined.

(** C8, as it is stated, fails for an explicit empty password: it is
    not null, so it is the first non-null, yet [get_client] receives
    the password of the environment. *)
Lemma get_clickhouse_client_empty_password :
  first_non_null (Some EmptyString) (secret_env !! "CLICKHOUSE_PASSWORD") EmptyString
    = EmptyString
  ∧ get_clickhouse_client (catalog_world secret_env test_catalog)
      None None None (Some EmptyString) None
    = call_get_client (catalog_world secret_env test_catalog)
        {| host := "localhost"; port := 8123; username := "default";
           password := "secret"; database := "default" |}.
Proof. split; reflexivity. Qed.

(** The port 0 gives way to the environment in the same manner. *)
Example get_clickhouse_client_zero_port :
  trace (get_clickhouse_client (catalog_world {["CLICKHOUSE_PORT" := "9000"]} [])
           None (Some 0) None None None)
  = [GetClient {| host := "localhost"; port := 9000; username := "default";
                  password := EmptyString; database := "default" |}].
Proof. reflexivity. Qed.

(** ** The string methods at work *)

Example strip_ex : Py.strip "  select 1 " = "select 1". Proof. reflexivity. Qed.
Example split_ex : Py.split "/" "a//b/" = ["a"; EmptyString; "b"; EmptyString]. Proof. reflexivity. Qed.
Example int_ex : Py.int_of_str " -1_0 " = Some (-10). Proof. reflexivity. Qed.
Example int_ex2 : Py.int_of_str "1__0" = None. Proof. reflexivity. Qed.
Example int_ex3 : Py.int_of_str "8123" = Some 8123. Proof. reflexivity. Qed.
Example str_ex : Py.str_of_int (-120) = "-120". Proof. reflexivity. Qed.
Example str_ex0 : Py.str_of_int 0 = "0". Proof. reflexivity. Qed.
Example up_ex : Py.upper "Select_z{`a" = "SELECT_Z{`A". Proof. reflexivity. Qed.

Example repr_ex : Py.repr "abc" = "'abc'". Proof. reflexivity. Qed.
Example repr_ex2 : Py.repr "a'b\c" = String Py.double_quote "a'b\\c" +:+ String Py.double_quote EmptyString.
Proof. reflexivity. Qed.

(** * Further properties *)

(** ** The read-only gate *)

Section GateFacts.

Implicit Types (s q r a b : string) (c : ascii).

Local Arguments Py.isspace : simpl never.
Local Arguments Py.upper_char : simpl never.

Lemma gate_ascii q :
  gate ascii_builtins q = Py.startswith (Py.upper (Py.strip q)) "SELECT".
Proof. reflexivity. Qed.



Lemma isspace_upper_char c : Py.isspace (Py.upper_char c) = Py.isspace c.
Proof. by destruct c as [[] [] [] [] [] [] [] []]. Qed.







Lemma map_chars_app (f : ascii → ascii) s r :
  Py.map_chars f (s +:+ r) = Py.map_chars f s +:+ Py.map_chars f r.
Proof. induction s as [|c s IH]; [done|]. rewrite !app_cons. simpl. by rewrite IH. Qed.


(** White space in front of a text is dropped by [lstrip], behind it
    by [rstrip]. *)
Lemma lstrip_blank_app a s : blank a → Py.lstrip (a +:+ s) = Py.lstrip s.
Proof.
  unfold blank. induction a as [|c a IH]; [done|].
  rewrite app_cons. simpl. destruct (Py.isspace c); [done|discriminate].
Qed.

Lemma rstrip_blank b : blank b → Py.rstrip b = EmptyString.
Proof.
  unfold blank. induction b as [|c b IH]; [done|]. simpl.
  destruct (Py.isspace c); [|discriminate].
  intros H. by rewrite (IH H).
Qed.

Lemma rstrip_app_blank s b : blank b → Py.rstrip (s +:+ b) = Py.rstrip s.
Proof.
  intros Hb. induction s as [|c s IH]; [by apply rstrip_blank|].
  rewrite app_cons. simpl. by rewrite IH.
Qed.

Lemma lstrip_app_blank s b :
  blank b →
  Py.lstrip (s +:+ b) = Py.lstrip s +:+ b
  ∨ (Py.lstrip s = EmptyString ∧ Py.lstrip (s +:+ b) = EmptyString).
Proof.
  intros Hb. induction s as [|c s IH]; [by right|].
  rewrite app_cons. simpl. destruct (Py.isspace c); [done|by left].
Qed.

Lemma strip_blank_around a s b :
  blank a → blank b → Py.strip (a +:+ s +:+ b) = Py.strip s.
Proof.
  intros Ha Hb. unfold Py.strip. rewrite lstrip_blank_app by done.
  destruct (lstrip_app_blank s b Hb) as [->|[-> ->]]; [|done].
  by apply rstrip_app_blank.
Qed.

(** X2.  ASCII white space (the space and the controls 9 to 13 and
    28 to 31) around a query does not change the verdict of the gate
    on ASCII text. *)
Theorem gate_ignores_white_space a q b :
  ascii_text q = true →
  blank a → blank b →
  gate ascii_builtins (a +:+ q +:+ b) = gate ascii_builtins q.
Proof. intros _ Ha Hb. rewrite !gate_ascii. by rewrite strip_blank_around. Qed.

(** The prefix test sees through [rstrip] when the prefix holds no
    white space. *)
Lemma prefix_upper_rstrip p s :
  Forall (λ c, Py.isspace c = false) (String.list_ascii_of_string p) →
  String.prefix p (Py.upper (Py.rstrip s)) = String.prefix p (Py.upper s).
Proof.
  unfold Py.upper. intros Hp. revert p Hp.
  induction s as [|c s IH]; intros [|a p] Hp; try done.
  - simpl. by destruct (Py.rstrip s), (Py.isspace c).
  - simpl in Hp. inversion_clear Hp as [|?? Ha Hp'].
    specialize (IH p Hp'). simpl.
    destruct (Py.rstrip s) as [|c' r] eqn:Hr; simpl in *.
    + destruct (Py.isspace c) eqn:Hc; simpl.
      * destruct (ascii_dec a (Py.upper_char c)) as [->|]; [|done].
        by rewrite isspace_upper_char, Hc in Ha.
      * destruct (ascii_dec a (Py.upper_char c)); [|done]. by rewrite <- IH.
    + destruct (ascii_dec a (Py.upper_char c)); [|done]. by rewrite <- IH.
Qed.

(** The gate is the test of the six characters after the leading
    white space. *)
Lemma gate_lstrip q : gate ascii_builtins q = Py.startswith (Py.upper (Py.lstrip q)) "SELECT".
Proof.
  rewrite gate_ascii. unfold Py.strip, Py.startswith. apply prefix_upper_rstrip.
  by repeat constructor.
Qed.




End GateFacts.

(** ** Every run of [call_tool] *)

Section CallToolRuns.

Variable w : World.
Implicit Types (q name : string) (arguments : gmap string PyVal).

(** The five ways through [call_tool]. *)
Lemma call_tool_cases name arguments :
  (name ≠ "execute_select_query"
   ∧ call_tool w name arguments = raise (ValueError ("Unknown tool: " +:+ name)))
  ∨ (name = "execute_select_query"
     ∧ truthy (default PNone (arguments !! "query")) = false
     ∧ call_tool w name arguments = raise (ValueError "Query is required"))
  ∨ (name = "execute_select_query"
     ∧ ∃ v, arguments !! "query" = Some v ∧ truthy v = true
            ∧ (∀ q, v ≠ PStr q)
            ∧ call_tool w name arguments
              = raise (AttributeError
                         ("'" +:+ type_name v +:+ "' object has no attribute 'strip'")))
  ∨ (name = "execute_select_query"
     ∧ ∃ q, arguments !! "query" = Some (PStr q) ∧ gate (builtins w) q = false
            ∧ call_tool w name arguments = mret [text_block only_select])
  ∨ (name = "execute_select_query"
     ∧ ∃ q, arguments !! "query" = Some (PStr q) ∧ gate (builtins w) q = true
            ∧ call_tool w name arguments = try_except (execute w q) report).
Proof.
  unfold call_tool.
  destruct (decide (name = "execute_select_query")) as [->|Hn].
  2: { left. split; [done|]. by rewrite bool_decide_eq_true_2. }
  right. rewrite bool_decide_eq_false_2 by (by intros H; apply H).
  destruct (arguments !! "query") as [v|] eqn:Hv; simpl; [|by left].
  destruct (truthy v) eqn:Ht; simpl; [|by left].
  right.
  destruct v as [|b|n|q|l|d]; try discriminate Ht;
    try (left; split; [done|]; eexists; split; [done|]; split; [done|];
         split; [by intros ?|done]).
  right. destruct (gate (builtins w) q) eqn:Hg; simpl.
  - right. split; [done|]. by exists q.
  - left. split; [done|]. by exists q.
Qed.

(** The [try] block asks for the client and then sends the query,
    and nothing else. *)
Lemma execute_trace q :
  trace (execute w q) = []
  ∨ ∃ p, trace (execute w q) = [GetClient p]
         ∨ trace (execute w q) = [GetClient p; Query q].
Proof.
  unfold execute.
  destruct (get_clickhouse_client_trace w None None None None None)
    as [(p & Hp & _)|(Hp & msg & Ho)]; unfold trace, outcome in *;
    destruct (get_clickhouse_client w None None None None None)
      as [tr [e|client]]; cbn [fst snd] in *; subst tr; try discriminate Ho.
  - right. exists p. by left.
  - right. exists p. right. rewrite bind_inr. unfold run_query.
    destruct (query client q); [done|]. by rewrite bind_inr.
  - by left.
Qed.

Lemma try_except_report q :
  trace (try_except (execute w q) report) = trace (execute w q)
  ∧ ∃ body, outcome (try_except (execute w q) report) = inr [text_block body].
Proof.
  destruct (execute w q) as [tr [e|bs]] eqn:He; simpl.
  - split; [by rewrite app_nil_r|eauto].
  - split; [done|]. unfold execute in He.
    destruct (get_clickhouse_client w None None None None None) as [t0 [e0|client]];
      [done|]. rewrite bind_inr in He. unfold run_query in He.
    destruct (query client q) as [e1|r]; [done|]. rewrite bind_inr in He.
    injection He as _ <-. eauto.
Qed.

(** X4.  Whenever [call_tool] raises, it has made no call to the
    driver, and the exception is one of three: the ValueError of an
    unknown tool, the ValueError "Query is required", or the
    AttributeError of a truthy query that is no string. *)
Theorem call_tool_raises_before_driver name arguments e :
  outcome (call_tool w name arguments) = inl e →
  trace (call_tool w name arguments) = []
  ∧ (e = ValueError ("Unknown tool: " +:+ name)
     ∨ e = ValueError "Query is required"
     ∨ ∃ v, arguments !! "query" = Some v
            ∧ e = AttributeError
                    ("'" +:+ type_name v +:+ "' object has no attribute 'strip'")).
Proof.
  intros He.
  destruct (call_tool_cases name arguments)
    as [[_ H]|[(_ & _ & H)|[(_ & v & Hv & _ & _ & H)|[(_ & q & _ & _ & H)
        |(_ & q & _ & _ & H)]]]];
    rewrite H in *.
  - injection He as <-. split; [done|]. by left.
  - injection He as <-. split; [done|]. right. by left.
  - injection He as <-. split; [done|]. do 2 right. by exists v.
  - discriminate He.
  - destruct (try_except_report q) as [_ [body Hb]]. by rewrite Hb in He.
Qed.

(** X5.  Whenever [call_tool] returns, it returns exactly one content
    block, and its type is text. *)
Theorem call_tool_returns_one_text_block name arguments blocks :
  outcome (call_tool w name arguments) = inr blocks →
  ∃ body, blocks = [{| type := "text"; text := body |}].
Proof.
  intros Hb.
  destruct (call_tool_cases name arguments)
    as [[_ H]|[(_ & _ & H)|[(_ & v & _ & _ & _ & H)|[(_ & q & _ & _ & H)
        |(_ & q & _ & _ & H)]]]];
    rewrite H in *; try discriminate Hb.
  - injection Hb as <-. by eexists.
  - destruct (try_except_report q) as [_ [body Hbody]].
    rewrite Hbody in Hb. injection Hb as <-. by eexists.
Qed.

(** X6.  [call_tool] sends the store at most one statement, and that
    statement is the value of the key query, as it was given, which
    passes the gate: no other text ever reaches the store. *)
Theorem call_tool_sends_only_the_query name arguments :
  statements (call_tool w name arguments) = []
  ∨ ∃ q, name = "execute_select_query"
         ∧ arguments !! "query" = Some (PStr q)
         ∧ gate (builtins w) q = true
         ∧ statements (call_tool w name arguments) = [q].
Proof.
  unfold statements.
  destruct (call_tool_cases name arguments)
    as [[_ H]|[(_ & _ & H)|[(_ & v & _ & _ & _ & H)|[(_ & q & _ & _ & H)
        |(Hn & q & Hq & Hg & H)]]]];
    rewrite H; try by left.
  destruct (try_except_report q) as [-> _].
  destruct (execute_trace q) as [->|[p [->| ->]]]; [by left|by left|].
  right. by exists q.
Qed.

Lemma call_tool_known arguments :
  outcome (call_tool w "execute_select_query" arguments)
  ≠ inl (ValueError "Unknown tool: execute_select_query").
Proof.
  destruct (call_tool_cases "execute_select_query" arguments)
    as [[Hn _]|[(_ & _ & H)|[(_ & v & _ & _ & _ & H)|[(_ & q & _ & _ & H)
        |(_ & q & _ & _ & H)]]]]; [done|rewrite H..].
  - intros E. discriminate E.
  - intros E. discriminate E.
  - intros E. discriminate E.
  - destruct (try_except_report q) as [_ [body ->]]. intros E. discriminate E.
Qed.

(** X7.  The declaration of [list_tools] and the handler agree: the
    names [call_tool] does not turn down as unknown are the names
    declared, and a call of a declared tool without a key its schema
    requires raises the ValueError "Query is required", before any
    call to the driver. *)
Theorem list_tools_agrees_with_call_tool name arguments :
  ((∃ t, t ∈ list_tools ∧ Tool.name t = name)
   ↔ outcome (call_tool w name arguments)
     ≠ inl (ValueError ("Unknown tool: " +:+ name)))
  ∧ (∀ t key,
       t ∈ list_tools →
       key ∈ required_keys (Tool.inputSchema t) →
       arguments !! key = None →
       call_tool w (Tool.name t) arguments
       = ([], inl (ValueError "Query is required"))).
Proof.
  split; [split|].
  - intros (t & ->%list_elem_of_singleton & <-). apply call_tool_known.
  - intros He. eexists. split; [by left|]. simpl.
    destruct (call_tool_cases name arguments)
      as [[_ H]|[(-> & _)|[(-> & _)|[(-> & _)|(-> & _)]]]]; try done.
    by rewrite H in He.
  - intros t key ->%list_elem_of_singleton Hk Hnone.
    apply list_elem_of_singleton in Hk as ->.
    unfold call_tool. simpl. by rewrite Hnone.
Qed.

End CallToolRuns.

(** ** Every run of [read_resource] *)

Lemma split_app_any sep s r :
  Py.split sep (s +:+ String sep r) = Py.split sep s ++ Py.split sep r.
Proof.
  induction s as [|c s IH].
  - rewrite app_empty_l. simpl. by destruct (decide (sep = sep)).
  - rewrite app_cons. simpl. destruct (decide (c = sep)); rewrite IH; [done|].
    pose proof (split_not_nil sep s). by destruct (Py.split sep s).
Qed.

(** A separator in the string makes a second piece. *)
Lemma split_length_contains sep s :
  Py.contains sep s = true → (2 ≤ length (Py.split sep s))%nat.
Proof.
  induction s as [|c s IH]; [done|]. simpl.
  destruct (decide (c = sep)) as [->|Hc].
  - intros _. pose proof (split_not_nil sep s).
    destruct (Py.split sep s); [done|]. simpl. lia.
  - rewrite bool_decide_eq_false_2 by done. simpl. intros H.
    specialize (IH H). destruct (Py.split sep s); simpl in *; lia.
Qed.

Lemma split_length_pos sep s : (1 ≤ length (Py.split sep s))%nat.
Proof.
  pose proof (split_not_nil sep s). destruct (Py.split sep s); [done|]. simpl. lia.
Qed.

Lemma trace_mapM_nil {A B} (f : A → M B) (l : list A) :
  (∀ x, trace (f x) = []) → trace (mapM f l) = [].
Proof.
  intros Hf. induction l as [|x l IH]; [done|].
  change (mapM f (x :: l)) with (y ← f x; k ← mapM f l; mret (y :: k)).
  specialize (Hf x). unfold trace in *.
  destruct (f x) as [t [e|y]]; simpl in *; subst t; [done|].
  destruct (mapM f l) as [t' [e|k]]; simpl in *; by subst t'.
Qed.

Lemma trace_item {A} (row : list A) i : trace (item row i) = [].
Proof. unfold item. by destruct (row !! i). Qed.

Lemma trace_joinable i l : trace (joinable i l) = [].
Proof.
  revert i. induction l as [|v l IH]; intros i; [done|].
  destruct v; try done. simpl. specialize (IH (S i)). unfold trace in *.
  destruct (joinable (S i) l) as [t [e|ss]]; simpl in *; by subst t.
Qed.

(** A bind whose continuation makes no call. *)
Lemma bind_silent {A B} (m : M A) (f : A → M B) :
  (∀ a, trace (f a) = []) → trace (m ≫= f) = trace m.
Proof.
  intros Hf. destruct m as [t [e|a]]; [done|]. rewrite bind_inr.
  unfold trace in *. simpl. by rewrite Hf, app_nil_r.
Qed.

Section ReadResourceRuns.

Variable w : World.
Implicit Types (u database table sql : string).

Lemma trace_read_tables client database :
  trace (read_tables client database) = [Query ("SHOW TABLES FROM " +:+ database)].
Proof.
  unfold read_tables. rewrite bind_silent; [done|]. intros r.
  rewrite bind_silent; [apply trace_mapM_nil; intros; apply trace_item|].
  intros rows. rewrite bind_silent; [apply trace_joinable|done].
Qed.

Lemma trace_read_schema client database table :
  trace (read_schema client database table)
  = [Query ("DESCRIBE TABLE " +:+ database +:+ "." +:+ table)].
Proof.
  unfold read_schema. rewrite bind_silent; [done|]. intros r.
  rewrite bind_silent; [|done]. apply trace_mapM_nil. intros row.
  rewrite bind_silent; [apply trace_item|]. intros r0.
  rewrite bind_silent; [apply trace_item|done].
Qed.

(** The four ways through [read_resource] once the client is there. *)
Lemma read_resource_cases u tr client :
  get_clickhouse_client w None None None None None = (tr, inr client) →
  (Py.startswith u "clickhouse://" = false
   ∧ read_resource w (mkAnyUrl u)
     = (tr, inl (ValueError ("Invalid URI scheme: " +:+ u))))
  ∨ (∃ database,
       Py.contains "/" database = false
       ∧ u = "clickhouse://" +:+ database +:+ "/tables"
       ∧ read_resource w (mkAnyUrl u)
         = (tr ++ trace (read_tables client database),
            outcome (read_tables client database)))
  ∨ (∃ database table,
       Py.contains "/" database = false
       ∧ Py.contains "/" table = false
       ∧ u = "clickhouse://" +:+ database +:+ "/" +:+ table +:+ "/schema"
       ∧ read_resource w (mkAnyUrl u)
         = (tr ++ trace (read_schema client database table),
            outcome (read_schema client database table)))
  ∨ (Py.startswith u "clickhouse://" = true
     ∧ is_table_list u = false ∧ is_schema u = false
     ∧ read_resource w (mkAnyUrl u)
       = (tr, inl (ValueError ("Invalid resource URI: " +:+ u)))).
Proof.
  intros Hc. unfold read_resource. rewrite Hc, bind_inr.
  unfold url_str. cbv beta zeta.
  destruct (Py.startswith u "clickhouse://") eqn:Hs; cbn [negb].
  2: { left. split; [done|]. simpl. by rewrite app_nil_r. }
  right.
  change (Py.split "/" (Py.slice_from _ u)) with (segments u).
  destruct (is_table_list u) eqn:Ht.
  { left. pose proof Ht as (database & Hd & ->)%is_table_list_iff.
    exists database. split; [done|]. split; [done|].
    rewrite (segments_table_list database) by done. cbn [length].
    rewrite (bool_decide_eq_true_2 (2 = 2)%nat) by done.
    rewrite (bool_decide_eq_true_2 (_ !! 1%nat = Some "tables")) by done.
    cbn [andb]. by rewrite (item_Some _ 0 database), bind_ret by done. }
  right. destruct (is_schema u) eqn:Hsc.
  { left. pose proof Hsc as (database & table & Hd & Htb & ->)%is_schema_iff.
    exists database, table. do 3 (split; [done|]).
    rewrite (segments_schema database table) by done. cbn [length].
    rewrite (bool_decide_eq_false_2 (3 = 2)%nat) by done.
    rewrite (bool_decide_eq_true_2 (3 = 3)%nat) by done.
    rewrite (bool_decide_eq_true_2 (_ !! 2%nat = Some "schema")) by done.
    cbn [andb].
    rewrite (item_Some _ 0 database), bind_ret by done.
    by rewrite (item_Some _ 1 table), bind_ret by done. }
  right. do 3 (split; [done|]).
  unfold is_table_list, is_schema in Ht, Hsc. rewrite Hs in Ht, Hsc.
  cbn [andb] in Ht, Hsc. rewrite Ht, Hsc. simpl. by rewrite app_nil_r.
Qed.

End ReadResourceRuns.


Lemma statements_app {A} (t : list Event) (m : M A) (o : exn + A) :
  Forall (λ ev, is_query ev = false) t →
  statements ((t ++ trace m, o) : M A) = statements m.
Proof.
  intros Ht. unfold statements, trace. simpl. rewrite omap_app.
  replace (omap _ t) with (@nil string); [done|].
  induction Ht as [|[p|sql] t Hev _ IH]; [done|by simpl|done].
Qed.

Section ReadResourceProperties.

Variable w : World.
Implicit Types (u database table sql : string).

Lemma acquired_no_query tr client :
  get_clickhouse_client w None None None None None = (tr, inr client) →
  Forall (λ ev, is_query ev = false) tr.
Proof.
  intros (p & -> & _)%get_clickhouse_client_ok_trace. by repeat constructor.
Qed.


(** X9.  [read_resource] handles no error of the store: when the
    statement it sends raises, that exception is its outcome, as it
    is, and the statement was the only one sent. *)
Theorem read_resource_store_error u tr client sql e :
  get_clickhouse_client w None None None None None = (tr, inr client) →
  sql ∈ statements (read_resource w (mkAnyUrl u)) →
  query client sql = inl e →
  read_resource w (mkAnyUrl u) = (tr ++ [Query sql], inl e).
Proof.
  intros Hc Hin He. pose proof (acquired_no_query tr client Hc) as Htr.
  destruct (read_resource_cases w u tr client Hc)
    as [[_ H]|[(d & _ & _ & H)|[(d & t & _ & _ & _ & H)|(_ & _ & _ & H)]]];
    rewrite H in *.
  - rewrite <- (app_nil_r tr) in Hin.
    rewrite (statements_app tr (raise (ValueError EmptyString) : M string)) in Hin by done.
    by apply elem_of_nil in Hin.
  - rewrite statements_app in Hin by done.
    unfold statements in Hin. rewrite trace_read_tables in Hin.
    apply list_elem_of_singleton in Hin as ->.
    rewrite trace_read_tables. f_equal.
    unfold read_tables, run_query. by rewrite He.
  - rewrite statements_app in Hin by done.
    unfold statements in Hin. rewrite trace_read_schema in Hin.
    apply list_elem_of_singleton in Hin as ->.
    rewrite trace_read_schema. f_equal.
    unfold read_schema, run_query. by rewrite He.
  - rewrite <- (app_nil_r tr) in Hin.
    rewrite (statements_app tr (raise (ValueError EmptyString) : M string)) in Hin by done.
    by apply elem_of_nil in Hin.
Qed.


End ReadResourceProperties.

Section ListedIdentifiers.

Variable w : World.
Implicit Types (d t u : string).

Lemma read_resource_no_shape u tr client :
  get_clickhouse_client w None None None None None = (tr, inr client) →
  Py.startswith u "clickhouse://" = true →
  is_table_list u = false →
  is_schema u = false →
  read_resource w (mkAnyUrl u)
  = (tr, inl (ValueError ("Invalid resource URI: " +:+ u))).
Proof.
  intros Hc Hs Ht Hsc.
  destruct (read_resource_cases w u tr client Hc)
    as [[Hs' _]|[(d & Hd & Hu & _)|[(d & t & Hd & Htb & Hu & _)|(_ & _ & _ & H)]]];
    [congruence| | |done].
  - assert (is_table_list u = true) by (apply is_table_list_iff; by exists d).
    congruence.
  - assert (is_schema u = true) by (apply is_schema_iff; by exists d, t).
    congruence.
Qed.

Lemma segments_tables_uri d :
  segments ("clickhouse://" +:+ d +:+ "/tables") = Py.split "/" d ++ ["tables"].
Proof. unfold segments. rewrite slice_from_app. apply (split_app_any "/" d "tables"). Qed.

Lemma segments_schema_uri d t :
  segments ("clickhouse://" +:+ d +:+ "/" +:+ t +:+ "/schema")
  = Py.split "/" d ++ Py.split "/" t ++ ["schema"].
Proof.
  unfold segments. rewrite slice_from_app.
  change ("/" +:+ t +:+ "/schema") with (String "/" (t +:+ "/schema")).
  rewrite (split_app_any "/" d). f_equal. apply (split_app_any "/" t "schema").
Qed.

(** X11.  The text [list_resources] hands to [AnyUrl] for a name
    that holds a slash is no identifier [read_resource] takes: where
    the URL type keeps that text as it is, [read_resource] turns the
    identifier down as an invalid resource URI, without a statement
    to the store. *)
Theorem read_resource_rejects_slash_names d t (id : AnyUrl) tr client :
  get_clickhouse_client w None None None None None = (tr, inr client) →
  (Py.contains "/" d = true →
   url_str id = tables_text d →
   read_resource w (uri (tables_resource id d))
   = (tr, inl (ValueError ("Invalid resource URI: clickhouse://"
                           +:+ d +:+ "/tables"))))
  ∧ (Py.contains "/" d = true ∨ Py.contains "/" t = true →
     url_str id = schema_text d t →
     read_resource w (uri (schema_resource id d t))
     = (tr, inl (ValueError ("Invalid resource URI: clickhouse://"
                             +:+ d +:+ "/" +:+ t +:+ "/schema")))).
Proof.
  intros Hc. destruct id as [u]. unfold url_str, tables_text, schema_text.
  split.
  - intros Hd%(split_length_contains "/") ->. simpl.
    apply (read_resource_no_shape _ tr client Hc); [apply startswith_app|..];
      unfold is_table_list, is_schema; rewrite startswith_app, segments_tables_uri;
      cbn [andb]; rewrite length_app; cbn [length].
    + rewrite bool_decide_eq_false_2 by lia. done.
    + destruct (decide (length (Py.split "/" d) = 2%nat)) as [E|E].
      * rewrite (bool_decide_eq_false_2 (_ !! 2%nat = _)); [by rewrite andb_false_r|].
        rewrite lookup_app_r by lia. by rewrite E.
      * by rewrite bool_decide_eq_false_2 by lia.
  - intros Hdt ->. simpl.
    assert (3 ≤ length (Py.split "/" d) + length (Py.split "/" t))%nat as Hlen.
    { pose proof (split_length_pos "/" d) as H1.
      pose proof (split_length_pos "/" t) as H2.
      destruct Hdt as [H%(split_length_contains "/")|H%(split_length_contains "/")];
        lia. }
    apply (read_resource_no_shape _ tr client Hc); [apply startswith_app|..];
      unfold is_table_list, is_schema; rewrite startswith_app, segments_schema_uri;
      cbn [andb]; rewrite !length_app; cbn [length];
      by rewrite bool_decide_eq_false_2 by lia.
Qed.

End ListedIdentifiers.

(** ** Every run of [list_resources] *)

Lemma for_each_raise {A K R} (body : A → list R → M (list R))
    (ev : K → list Event) (g : K → list R)
    (l1 l2 : list A) (k1 : list K) (x : A) (s : list R) tr e :
  Forall2 (λ x y, ∀ s, body x s = (ev y, inr (s ++ g y))) l1 k1 →
  (∀ s, body x s = (tr, inl e)) →
  for_each (l1 ++ x :: l2) body s = ((k1 ≫= ev) ++ tr, inl e).
Proof.
  intros H Hx. revert s. induction H as [|x' y l k Hx' _ IH]; intros s.
  - change (for_each ([] ++ x :: l2) body s)
      with (s' ← body x s; for_each l2 body s'). by rewrite Hx.
  - change (for_each ((x' :: l) ++ x :: l2) body s)
      with (s' ← body x' s; for_each (l ++ x :: l2) body s').
    rewrite Hx', bind_inr, IH, bind_cons. simpl. by rewrite <- app_assoc.
Qed.

Section ListResourcesRuns.

Variable w : World.

(** X12.  [list_resources] returns all or nothing: when [AnyUrl]
    refuses the identifier of a database, or the store fails on its
    tables, that exception is the outcome, the descriptors gathered
    so far are lost, and the databases after it are not asked for. *)
Theorem list_resources_all_or_nothing (url : string → AnyUrl)
    tr client r rows1 row rows2
    (dbs1 : list string) (tables : string → list string) d e :
  get_clickhouse_client w None None None None None = (tr, inr client) →
  query client db_query = inr r →
  result_rows r = rows1 ++ row :: rows2 →
  Forall2 (λ row d, row !! 0%nat = Some (SStr d)) rows1 dbs1 →
  (∀ d, d ∈ dbs1 →
     ∃ r', query client ("SHOW TABLES FROM " +:+ d) = inr r'
           ∧ Forall2 (λ row t, row !! 0%nat = Some (SStr t))
                     (result_rows r') (tables d)) →
  (∀ d, d ∈ dbs1 →
     any_url w (tables_text d) = inr (url (tables_text d))
     ∧ ∀ t, t ∈ tables d →
            any_url w (schema_text d t) = inr (url (schema_text d t))) →
  row !! 0%nat = Some (SStr d) →
  (any_url w (tables_text d) = inl e →
   list_resources w
   = (tr ++ Query db_query
         :: ((λ d, Query ("SHOW TABLES FROM " +:+ d)) <$> dbs1),
      inl e))
  ∧ (∀ id, any_url w (tables_text d) = inr id →
     query client ("SHOW TABLES FROM " +:+ d) = inl e →
     list_resources w
     = (tr ++ Query db_query
           :: ((λ d, Query ("SHOW TABLES FROM " +:+ d)) <$> dbs1 ++ [d]),
        inl e)).
Proof.
  intros Hc Hr Hrows Hdbs Htables Hurls Hrow.
  assert (∀ d, d ∈ dbs1 →
            (∃ r', query client ("SHOW TABLES FROM " +:+ d) = inr r'
                   ∧ Forall2 (λ row t, row !! 0%nat = Some (SStr t))
                             (result_rows r') (tables d))
            ∧ any_url w (tables_text d) = inr (url (tables_text d))
            ∧ ∀ t, t ∈ tables d →
                   any_url w (schema_text d t) = inr (url (schema_text d t)))
    as Hall.
  { intros d' Hd'. split; [by apply Htables|by apply Hurls]. }
  split.
  - intros He. unfold list_resources.
    rewrite Hc, bind_inr. cbv zeta.
    rewrite (run_query_inr _ _ _ Hr), bind_inr, Hrows.
    rewrite (for_each_raise _ (λ d, [Query ("SHOW TABLES FROM " +:+ d)])
               (λ d, database_resources url d (tables d)) rows1 rows2 dbs1 row []
               [] e).
    + simpl. by rewrite bind_singletons, app_nil_r.
    + eapply Forall2_impl; [exact (Forall2_and_r _ _ _ _ Hdbs Hall)|].
      intros db d' [Hdb [(r' & Hr' & Hrws) [Hu Hus]]] resources.
      by apply (list_resources_round w url client db d' r' (tables d')).
    + intros s. rewrite (item_Some _ _ _ Hrow), bind_ret.
      change (str (SStr d)) with d.
      by rewrite (new_AnyUrl_inl _ _ _ He), bind_raise.
  - intros id Hid He. unfold list_resources.
    rewrite Hc, bind_inr. cbv zeta.
    rewrite (run_query_inr _ _ _ Hr), bind_inr, Hrows.
    rewrite (for_each_raise _ (λ d, [Query ("SHOW TABLES FROM " +:+ d)])
               (λ d, database_resources url d (tables d)) rows1 rows2 dbs1 row []
               [Query ("SHOW TABLES FROM " +:+ d)] e).
    + simpl. by rewrite bind_singletons, fmap_app.
    + eapply Forall2_impl; [exact (Forall2_and_r _ _ _ _ Hdbs Hall)|].
      intros db d' [Hdb [(r' & Hr' & Hrws) [Hu Hus]]] resources.
      by apply (list_resources_round w url client db d' r' (tables d')).
    + intros s. rewrite (item_Some _ _ _ Hrow), bind_ret.
      change (str (SStr d)) with d.
      rewrite (new_AnyUrl_inr _ _ _ Hid), bind_ret.
      unfold run_query. by rewrite He.
Qed.

(** X13.  Whatever the store answers and whatever [AnyUrl] makes of
    the identifiers, the statements [list_resources] sends are the
    listing of the databases and SHOW TABLES statements, and every
    element of a result it returns is a descriptor of one of the two
    kinds, around the URL that [AnyUrl] made of its identifier, of
    MIME type text/plain. *)
Theorem list_resources_invariant :
  Forall catalog_statement (statements (list_resources w))
  ∧ ∀ rs, outcome (list_resources w) = inr rs →
          Forall (λ r, descriptor w r ∧ mimeType r = "text/plain") rs.
Proof.
  assert (satisfies catalog_event
            (Forall (λ r, descriptor w r ∧ mimeType r = "text/plain"))
            (list_resources w)) as [Ht Hrs].
  { unfold list_resources.
    eapply satisfies_bind; [by apply satisfies_get_clickhouse_client|].
    intros client _. cbv zeta.
    eapply satisfies_bind; [apply satisfies_run_query; by left|].
    intros db_result _. apply satisfies_for_each; [done|].
    intros db resources Hres.
    eapply satisfies_bind; [apply satisfies_item|]. intros database _.
    eapply satisfies_bind; [apply satisfies_new_AnyUrl|]. intros uri Huri.
    cbv zeta.
    eapply satisfies_bind; [apply satisfies_run_query; right; by eexists|].
    intros table_result _.
    eapply satisfies_bind.
    { apply (satisfies_mapM _ (λ r, descriptor w r ∧ mimeType r = "text/plain")).
      intros table. eapply satisfies_bind; [apply satisfies_item|].
      intros table_0 _.
      eapply satisfies_bind; [apply satisfies_new_AnyUrl|]. intros uri' Huri'.
      apply satisfies_ret. split; [|done].
      exists (str database). right. by exists (str table_0), uri'. }
    intros extension Hext. apply satisfies_ret.
    apply Forall_app. split; [|done].
    apply Forall_app. split; [done|]. constructor; [|constructor].
    split; [|done]. exists (str database). left. by exists uri. }
  split; [|done]. by apply statements_Forall.
Qed.

End ListResourcesRuns.

(** ** The port through the environment *)

Section PortRoundTrip.

Implicit Types (d : Decimal.uint) (acc n : Z) (p : positive).

Lemma digits_string_of_uint d acc :
  Py.digits acc true (NilEmpty.string_of_uint d) = Some (uint_value acc d).
Proof. revert acc. induction d; intros acc; simpl; by rewrite ?IHd. Qed.

Lemma digits_string_of_uint_first d acc :
  d ≠ Decimal.Nil →
  Py.digits acc false (NilEmpty.string_of_uint d) = Some (uint_value acc d).
Proof. destruct d; [done|..]; intros _; simpl; apply digits_string_of_uint. Qed.

Lemma uint_value_pos d p : uint_value (Z.pos p) d = Z.pos (Pos.of_uint_acc d p).
Proof.
  revert p. induction d; intros p; simpl; [done|..];
    rewrite <- IHd; f_equal; lia.
Qed.

Lemma uint_value_0 d : uint_value 0 d = Z.of_N (Pos.of_uint d).
Proof.
  induction d; simpl; [done|done|..];
    by rewrite <- uint_value_pos.
Qed.

Lemma rstrip_string_of_uint d :
  Py.rstrip (NilEmpty.string_of_uint d) = NilEmpty.string_of_uint d.
Proof.
  induction d; simpl; [done|..]; rewrite IHd;
    by destruct (NilEmpty.string_of_uint d).
Qed.

Lemma strip_string_of_uint d :
  Py.strip (NilEmpty.string_of_uint d) = NilEmpty.string_of_uint d.
Proof.
  unfold Py.strip.
  assert (Py.lstrip (NilEmpty.string_of_uint d) = NilEmpty.string_of_uint d) as ->
    by by destruct d.
  apply rstrip_string_of_uint.
Qed.

Lemma int_of_str_unsigned d :
  d ≠ Decimal.Nil →
  Py.too_long (NilEmpty.string_of_uint d) = None →
  Py.int_of_str (NilEmpty.string_of_uint d) = Some (uint_value 0 d).
Proof.
  intros Hd Hl. unfold Py.int_of_str. rewrite Hl, strip_string_of_uint.
  rewrite <- (digits_string_of_uint_first d 0 Hd). by destruct d.
Qed.

Lemma int_of_str_signed d :
  d ≠ Decimal.Nil →
  Py.too_long (String "-" (NilEmpty.string_of_uint d)) = None →
  Py.int_of_str (String "-" (NilEmpty.string_of_uint d))
  = Some (- uint_value 0 d).
Proof.
  intros Hd Hl. unfold Py.int_of_str. rewrite Hl.
  assert (Py.strip (String "-" (NilEmpty.string_of_uint d))
          = String "-" (NilEmpty.string_of_uint d)) as ->.
  { unfold Py.strip.
    change (Py.lstrip (String "-" ?x)) with (String "-" x).
    change (Py.rstrip (String "-" ?x))
      with (match Py.rstrip x with
            | EmptyString => String "-" EmptyString
            | r => String "-" r
            end).
    rewrite rstrip_string_of_uint. by destruct (NilEmpty.string_of_uint d). }
  change (Z.opp <$> Py.digits 0 false (NilEmpty.string_of_uint d)
          = Some (- uint_value 0 d)).
  by rewrite digits_string_of_uint_first.
Qed.

Lemma int_of_str_pos p :
  Py.too_long (Py.str_of_int (Z.pos p)) = None →
  Py.int_of_str (Py.str_of_int (Z.pos p)) = Some (Z.pos p).
Proof.
  pose proof (DecimalPos.Unsigned.to_uint_nonnil p) as Hnil.
  change (Py.str_of_int (Z.pos p))
    with (NilZero.string_of_uint (Pos.to_uint p)).
  assert (NilZero.string_of_uint (Pos.to_uint p)
          = NilEmpty.string_of_uint (Pos.to_uint p)) as ->
    by by destruct (Pos.to_uint p).
  intros Hl. rewrite int_of_str_unsigned by done.
  by rewrite uint_value_0, DecimalPos.Unsigned.of_to.
Qed.

Lemma int_of_str_neg p :
  Py.too_long (Py.str_of_int (Z.neg p)) = None →
  Py.int_of_str (Py.str_of_int (Z.neg p)) = Some (Z.neg p).
Proof.
  pose proof (DecimalPos.Unsigned.to_uint_nonnil p) as Hnil.
  change (Py.str_of_int (Z.neg p))
    with (String "-" (NilZero.string_of_uint (Pos.to_uint p))).
  assert (NilZero.string_of_uint (Pos.to_uint p)
          = NilEmpty.string_of_uint (Pos.to_uint p)) as ->
    by by destruct (Pos.to_uint p).
  intros Hl. rewrite int_of_str_signed by done.
  by rewrite uint_value_0, DecimalPos.Unsigned.of_to.
Qed.

(** [int] reads back what [str] prints, within the limit of 4300
    digits. *)
Lemma int_of_str_of_int n :
  Py.too_long (Py.str_of_int n) = None →
  Py.int_of_str (Py.str_of_int n) = Some n.
Proof.
  destruct n as [|p|p]; [done|apply int_of_str_pos|apply int_of_str_neg].
Qed.

Lemma ascii_int_of_int n :
  Py.too_long (Py.str_of_int n) = None → ascii_int (Py.str_of_int n) = inr n.
Proof. intros Hl. unfold ascii_int. by rewrite Hl, int_of_str_of_int. Qed.

Variable w : World.

(** X14.  A port put in the environment as [str(n)] comes back as
    [n]: where [int] reads that text as it reads ASCII text, a call
    that passes no port, or the port 0, hands [get_client] exactly
    that number, for every integer [n] of at most 4300 digits. *)
Theorem port_through_environment n port host username password database :
  int_of (builtins w) (Py.str_of_int n) = ascii_int (Py.str_of_int n) →
  Py.too_long (Py.str_of_int n) = None →
  environ w !! "CLICKHOUSE_PORT" = Some (Py.str_of_int n) →
  port = None ∨ port = Some 0 →
  get_clickhouse_client w host port username password database
  = call_get_client w (resolved w host username password database n).
Proof.
  intros Hint Hl Henv Hport. unfold get_clickhouse_client, resolved.
  rewrite !or_str_first_truthy.
  assert (or_port port (int w (getenv w "CLICKHOUSE_PORT" "8123")) = mret n) as ->.
  { unfold getenv, int. rewrite Henv. simpl.
    rewrite Hint, ascii_int_of_int by done.
    by destruct Hport as [-> | ->]. }
  by rewrite bind_ret.
Qed.

End PortRoundTrip.

(** ** What the gate lets through *)

Section GateShape.

Implicit Types (s q a p rest : string) (c : ascii).

Local Arguments Py.isspace : simpl never.
Local Arguments Py.upper_char : simpl never.

(** A string is white space followed by what [lstrip] keeps. *)
Lemma lstrip_split s : ∃ a, blank a ∧ s = a +:+ Py.lstrip s.
Proof.
  induction s as [|c s (a & Ha & IH)]; [by exists EmptyString|].
  simpl. destruct (Py.isspace c) eqn:Hc.
  - exists (String c a). split.
    + unfold blank in *. simpl. by rewrite Hc.
    + rewrite app_cons. by f_equal.
  - by exists EmptyString.
Qed.

(** A prefix of the image of a string is the image of a prefix. *)
Lemma prefix_map_chars (f : ascii → ascii) p s :
  String.prefix p (Py.map_chars f s) = true →
  ∃ p' rest, s = p' +:+ rest ∧ Py.map_chars f p' = p.
Proof.
  revert s. induction p as [|b p IH]; intros s H.
  - by exists EmptyString, s.
  - destruct s as [|c s]; [done|]. simpl in H.
    destruct (ascii_dec b (f c)) as [->|]; [|done].
    destruct (IH s H) as (p' & rest & -> & <-).
    by exists (String c p'), rest.
Qed.

Lemma lstrip_select p rest :
  Py.upper p = "SELECT" → Py.lstrip (p +:+ rest) = p +:+ rest.
Proof.
  destruct p as [|c p]; [done|]. intros [= Hc _]. rewrite app_cons. simpl.
  destruct (Py.isspace c) eqn:Hs; [|done].
  by rewrite <- isspace_upper_char, Hc in Hs.
Qed.

(** X15.  Of the queries of ASCII characters, the gate lets through
    exactly those made of white space, then six letters that read
    SELECT in upper case, then anything at all. *)
Theorem gate_shape q :
  ascii_text q = true →
  gate ascii_builtins q = true
  ↔ ∃ a p rest, blank a ∧ Py.upper p = "SELECT" ∧ q = a +:+ p +:+ rest.
Proof.
  intros _. rewrite gate_lstrip. split.
  - intros (p & rest & Hq & Hp)%prefix_map_chars.
    destruct (lstrip_split q) as (a & Ha & Hs).
    exists a, p, rest. do 2 (split; [done|]). by rewrite <- Hq.
  - intros (a & p & rest & Ha & Hp & ->).
    rewrite lstrip_blank_app, lstrip_select by done.
    unfold Py.upper in *. rewrite map_chars_app, Hp.
    apply (startswith_app _ "SELECT").
Qed.

End GateShape.

(** ** Concrete runs of the further properties *)

Lemma gate_ignores_white_space_witness :
  ascii_text "select 1" = true
  ∧ blank "  " ∧ blank (Py.tab +:+ Py.newline)
  ∧ gate ascii_builtins ("  " +:+ "select 1" +:+ Py.tab +:+ Py.newline)
    = gate ascii_builtins "select 1".
Proof.
  split; [reflexivity|]. split; [reflexivity|]. split; [reflexivity|].
  apply (gate_ignores_white_space "  " "select 1" (Py.tab +:+ Py.newline));
    reflexivity.
Defined.


Lemma call_tool_raises_before_driver_witness :
  outcome (call_tool reachable "drop_everything" ∅)
    = inl (ValueError "Unknown tool: drop_everything")
  ∧ trace (call_tool reachable "drop_everything" ∅) = [].
Proof.
  split; [reflexivity|].
  destruct (call_tool_raises_before_driver reachable "drop_everything" ∅
              (ValueError "Unknown tool: drop_everything") eq_refl) as [H _].
  exact H.
Defined.

Lemma call_tool_returns_one_text_block_witness :
  outcome (call_tool reachable "execute_select_query"
             (only_query (PStr insert_query)))
    = inr [text_block only_select]
  ∧ ∃ body, [text_block only_select] = [{| type := "text"; text := body |}].
Proof.
  split; [reflexivity|].
  apply (call_tool_returns_one_text_block reachable "execute_select_query"
           (only_query (PStr insert_query))).
  reflexivity.
Defined.

Lemma list_tools_agrees_with_call_tool_witness :
  call_tool reachable "execute_select_query" ∅
  = ([], inl (ValueError "Query is required")).
Proof.
  destruct (list_tools_agrees_with_call_tool reachable "execute_select_query" ∅)
    as [_ H].
  apply (H execute_select_query "query").
  - by left.
  - by left.
  - reflexivity.
Defined.


Lemma read_resource_store_error_witness :
  read_resource reachable (mkAnyUrl "clickhouse://nonexistent/tables")
  = ([GetClient default_params; Query "SHOW TABLES FROM nonexistent"],
     inl (DriverError "Database nonexistent doesn't exist")).
Proof.
  apply (read_resource_store_error reachable "clickhouse://nonexistent/tables"
           [GetClient default_params] (catalog_client test_catalog)
           "SHOW TABLES FROM nonexistent"
           (DriverError "Database nonexistent doesn't exist")).
  - reflexivity.
  - by left.
  - reflexivity.
Defined.

Lemma read_resource_rejects_slash_names_witness :
  Py.contains "/" "logs/2024" = true
  ∧ read_resource reachable (mkAnyUrl "clickhouse://logs/2024/tables")
    = ([GetClient default_params],
       inl (ValueError "Invalid resource URI: clickhouse://logs/2024/tables")).
Proof.
  split; [reflexivity|].
  destruct (read_resource_rejects_slash_names reachable "logs/2024" "t"
              (mkAnyUrl "clickhouse://logs/2024/tables")
              [GetClient default_params] (catalog_client test_catalog) eq_refl)
    as [H _].
  apply H; reflexivity.
Defined.

Lemma list_resources_all_or_nothing_witness :
  list_resources losing
  = ([GetClient default_params; Query db_query;
      Query "SHOW TABLES FROM a"; Query "SHOW TABLES FROM b"],
     inl (DriverError "Code: 81. Database is unknown")).
Proof.
  refine (proj2 (list_resources_all_or_nothing losing mkAnyUrl
                   [GetClient default_params]
                   (partial_client ["a"; "b"; "c"] [("a", ["t1"])])
                   {| column_names := ["name"; "engine"];
                      result_rows := [[SStr "a"; SStr "Atomic"];
                                      [SStr "b"; SStr "Atomic"];
                                      [SStr "c"; SStr "Atomic"]] |}
                   [[SStr "a"; SStr "Atomic"]] [SStr "b"; SStr "Atomic"]
                   [[SStr "c"; SStr "Atomic"]] ["a"] (λ _, ["t1"]) "b"
                   (DriverError "Code: 81. Database is unknown")
                   _ _ _ _ _ _ _)
            (mkAnyUrl "clickhouse://b/tables") _ _);
    try reflexivity.
  - repeat constructor.
  - intros d Hd. apply list_elem_of_singleton in Hd as ->.
    eexists. split; [reflexivity|]. repeat constructor.
  - intros d Hd. apply list_elem_of_singleton in Hd as ->.
    split; [reflexivity|]. intros t Ht.
    apply list_elem_of_singleton in Ht as ->. reflexivity.
Defined.

(** The same loss when it is [AnyUrl] that refuses a name: the
    database before it was asked for its tables, the one after it is
    not. *)
Example list_resources_refused_midway :
  ∃ msg,
    list_resources (partial_world ["a"; "my db"; "c"] [("a", ["t1"]); ("c", [])])
    = ([GetClient default_params; Query db_query; Query "SHOW TABLES FROM a"],
       inl (ValidationError msg)).
Proof. eexists. reflexivity. Qed.

Lemma port_through_environment_witness :
  get_clickhouse_client port_env None None None None None
  = ([GetClient {| host := "localhost"; port := 9000; username := "default";
                   password := EmptyString; database := "default" |}],
     inr (catalog_client test_catalog)).
Proof.
  apply (port_through_environment port_env 9000 None None None None None).
  - reflexivity.
  - reflexivity.
  - reflexivity.
  - by left.
Defined.

Lemma gate_shape_witness :
  ascii_text "  select 1" = true
  ∧ (gate ascii_builtins "  select 1" = true
     ↔ ∃ a p rest, blank a ∧ Py.upper p = "SELECT"
                   ∧ "  select 1" = a +:+ p +:+ rest).
Proof.
  split; [reflexivity|]. apply (gate_shape "  select 1"). reflexivity.
Defined.

(** The gate turns down read-only statements that do not begin with
    the word: a query in parentheses, a WITH clause. *)
Example gate_rejects_other_readers :
  gate ascii_builtins "(SELECT 1)" = false
  ∧ gate ascii_builtins "WITH 1 AS x SELECT x" = false.
Proof. split; reflexivity. Qed.
